(** * Meal planner: calorie, macro, meal-plan and insight rules

    A shallow embedding of [recommendations.py] (class [MealRecommender]) and
    of the meal-share and empty-log paths of [backend/main.py], followed by
    the properties of the written specification that were checked against it.

    Python values are modelled as follows.
    - [int] is [Z].
    - [float] is an abstract number type [F] with the operations the code
      uses ([PyFloat]).  Two instances are given: [binary64], IEEE 754
      double precision on Rocq's primitive floats, which is what CPython
      computes with, and [exact], rational arithmetic without rounding
      error.  Every evaluation at a concrete input below is done in
      [binary64].  What holds of all plans, reports and goal texts is
      proved for every instance or for [binary64]; the two bounds that
      need arithmetic on all numbers are proved in [exact] and checked in
      [binary64] on a finite range.
    - [str] is [string]; [str.lower] lowers the ASCII letters.
    - a [dict] used as a record (the user profile, a meal, an insight) is a
      record whose keys may be missing or hold [None] ([entry]).
    - a raised exception is the [Raise] case of [result]. *)

From Stdlib Require Import ZArith QArith Qround Floats Bool List String Ascii.
From Stdlib Require Import Lia Lqa.
From Stdlib Require Import DecimalString.
Import ListNotations.

Set Implicit Arguments.

Close Scope Q_scope.
Open Scope Z_scope.

(** ** Exceptions and results *)

Inductive exn : Type :=
| TypeError
| AttributeError
| ValueError
| OverflowError
| KeyError.

Inductive result (A : Type) : Type :=
| Ok (a : A)
| Raise (e : exn).

Arguments Ok {A} a.
Arguments Raise {A} e.

Definition bind {A B : Type} (m : result A) (k : A -> result B) : result B :=
  match m with
  | Ok a => k a
  | Raise e => Raise e
  end.

Declare Scope py_scope.
Delimit Scope py_scope with py.
Notation "x <- m ;; k" := (bind m (fun x => k))
  (at level 61, m at next level, right associativity) : py_scope.

(** ** Strings *)

Open Scope string_scope.

Definition lower_ascii (c : ascii) : ascii :=
  let n := nat_of_ascii c in
  if ((65 <=? n) && (n <=? 90))%nat then ascii_of_nat (n + 32) else c.

(** [s.lower()] *)
Fixpoint lower (s : string) : string :=
  match s with
  | EmptyString => EmptyString
  | String c s' => String (lower_ascii c) (lower s')
  end.

(** [needle in hay] *)
Fixpoint str_in (needle hay : string) : bool :=
  prefix needle hay ||
  match hay with
  | EmptyString => false
  | String _ hay' => str_in needle hay'
  end.

(** The character [c] occurs in [s]. *)
Fixpoint has_char (c : ascii) (s : string) : bool :=
  match s with
  | EmptyString => false
  | String c' s' => Ascii.eqb c c' || has_char c s'
  end.

(** [re.search('|'.join(keywords), s)] for keywords without regular
    expression metacharacters: some keyword occurs in [s]. *)
Definition contains_any (keywords : list string) (s : string) : bool :=
  existsb (fun k => str_in k s) keywords.

(** [s.replace(a, b)] for single characters. *)
Fixpoint replace_char (a b : ascii) (s : string) : string :=
  match s with
  | EmptyString => EmptyString
  | String c s' => String (if Ascii.eqb c a then b else c) (replace_char a b s')
  end.

(** [str(n)] for an [int]. *)
Definition str_of_int (n : Z) : string := NilZero.string_of_int (Z.to_int n).

(** ** Dictionary entries

    A key of a profile dictionary is missing, holds [None], or holds a value. *)

Inductive entry (A : Type) : Type :=
| Missing
| PyNone
| Val (a : A).

Arguments Missing {A}.
Arguments PyNone {A}.
Arguments Val {A} a.

(** [k in d] *)
Definition has_key {A : Type} (e : entry A) : bool :=
  match e with
  | Missing => false
  | _ => true
  end.

(** [d[k].lower()] *)
Definition entry_lower (e : entry string) : result string :=
  match e with
  | Missing => Raise KeyError
  | PyNone => Raise AttributeError
  | Val s => Ok (lower s)
  end.

(** [int(d[k])] *)
Definition entry_int (e : entry Z) : result Z :=
  match e with
  | Missing => Raise KeyError
  | PyNone => Raise TypeError
  | Val n => Ok n
  end.

(** [float(d[k])] *)
Definition entry_float {F : Type} (e : entry F) : result F :=
  match e with
  | Missing => Raise KeyError
  | PyNone => Raise TypeError
  | Val x => Ok x
  end.

(** A [dict] whose keys are set in a loop: insertion order is kept, and
    setting a key that is present replaces its value in place. *)
Fixpoint dict_set {V : Type} (d : list (string * V)) (k : string) (v : V)
  : list (string * V) :=
  match d with
  | [] => [(k, v)]
  | (k', v') :: d' =>
      if String.eqb k' k then (k', v) :: d' else (k', v') :: dict_set d' k v
  end.

Fixpoint dict_get {V : Type} (d : list (string * V)) (k : string) : option V :=
  match d with
  | [] => None
  | (k', v') :: d' => if String.eqb k' k then Some v' else dict_get d' k
  end.

(** ** Numbers *)

(** The operations of Python's [float] that the code uses. *)
Class PyFloat (F : Type) : Type := {
  of_int : Z -> F;                 (* an int operand of mixed arithmetic *)
  fadd : F -> F -> F;
  fsub : F -> F -> F;
  fmul : F -> F -> F;
  fdiv : F -> F -> F;              (* never applied to a zero divisor below *)
  fltb : F -> F -> bool;           (* x < y *)
  feqb : F -> F -> bool;           (* x == y *)
  py_int : F -> result Z;          (* int(x): truncation towards zero *)
  py_round : F -> result Z;        (* round(x): nearest, ties to even *)
  py_round_nd : F -> Z -> F        (* round(x, n), 0 <= n *)
}.

Declare Scope num_scope.
Delimit Scope num_scope with num.
Notation "x + y" := (fadd x y) : num_scope.
Notation "x - y" := (fsub x y) : num_scope.
Notation "x * y" := (fmul x y) : num_scope.
Notation "x / y" := (fdiv x y) : num_scope.
Notation "x <? y" := (fltb x y) : num_scope.
Notation "x >? y" := (fltb y x) : num_scope.
Notation "x =? y" := (feqb x y) : num_scope.

(** The decimal literal [m / 10^k], e.g. [dec 155 2] for [1.55]. *)
Definition dec {F : Type} `{PyFloat F} (m : Z) (k : Z) : F :=
  fdiv (of_int m) (of_int (10 ^ k)).

(** [max(x, y)] returns [y] when [y > x] and [x] otherwise. *)
Definition py_max {F : Type} `{PyFloat F} (x y : F) : F :=
  if fltb x y then y else x.

(** *** Integer rounding of a rational [n / d], [0 < d] *)

Definition trunc_div (n : Z) (d : Z) : Z := Z.quot n d.

Definition round_half_even_div (n : Z) (d : Z) : Z :=
  let q := Z.div n d in
  let r := Z.modulo n d in
  match Z.compare (2 * r) d with
  | Lt => q
  | Gt => q + 1
  | Eq => if Z.even q then q else q + 1
  end.

(** *** Exact rational arithmetic *)

Definition Q_round_nd (x : Q) (n : Z) : Q :=
  let s := 10 ^ n in
  Qmake (round_half_even_div (Qnum x * s) (Zpos (Qden x))) (Z.to_pos s).

#[export] Instance exact : PyFloat Q := {
  of_int := inject_Z;
  fadd := Qplus;
  fsub := Qminus;
  fmul := Qmult;
  fdiv := Qdiv;
  fltb := fun x y => negb (Qle_bool y x);
  feqb := Qeq_bool;
  py_int := fun x => Ok (trunc_div (Qnum x) (Zpos (Qden x)));
  py_round := fun x => Ok (round_half_even_div (Qnum x) (Zpos (Qden x)));
  py_round_nd := Q_round_nd
}.

(** *** IEEE 754 binary64 *)

(** The integer [n] rounded to the nearest double, ties to even.  An
    integer beyond the range of a double, at which Python raises
    [OverflowError], becomes an infinity, at which the [int] or [round]
    that follows raises it. *)
Definition b64_of_int (n : Z) : float :=
  SF2Prim (binary_normalize prec emax n 0 false).

(** The finite double [x] as [(n, d)] with [x = n / d] and [d] a power of
    two; [None] for an infinity or a NaN. *)
Definition b64_fraction (x : float) : option (Z * Z) :=
  match Prim2SF x with
  | S754_zero _ => Some (0, 1)%Z
  | S754_finite s m e =>
      let n := if s then Zneg m else Zpos m in
      Some (match e with
            | Z0 => (n, 1)
            | Zpos p => (n * 2 ^ Zpos p, 1)
            | Zneg p => (n, 2 ^ Zpos p)
            end)%Z
  | S754_infinity _ | S754_nan => None
  end.

Definition b64_int (x : float) : result Z :=
  match b64_fraction x with
  | Some (n, d) => Ok (trunc_div n d)
  | None => if PrimFloat.is_nan x then Raise ValueError else Raise OverflowError
  end.

Definition b64_round (x : float) : result Z :=
  match b64_fraction x with
  | Some (n, d) => Ok (round_half_even_div n d)
  | None => if PrimFloat.is_nan x then Raise ValueError else Raise OverflowError
  end.

(** [round(x, n)]: the exact value of [x] is rounded to [n] decimals, ties
    to even, and the decimal obtained is converted to the nearest double. *)
Definition b64_round_nd (x : float) (n : Z) : float :=
  match b64_fraction x with
  | Some (num, d) =>
      let s := (10 ^ n)%Z in
      match round_half_even_div (num * s) d with
      | Z0 => if PrimFloat.get_sign x then PrimFloat.neg_zero else PrimFloat.zero
      | Zpos y =>
          SF2Prim (SFdiv prec emax (S754_finite false y 0)
                         (S754_finite false (Z.to_pos s) 0))
      | Zneg y =>
          SF2Prim (SFdiv prec emax (S754_finite true y 0)
                         (S754_finite false (Z.to_pos s) 0))
      end
  | None => x
  end.

#[export] Instance binary64 : PyFloat float := {
  of_int := b64_of_int;
  fadd := PrimFloat.add;
  fsub := PrimFloat.sub;
  fmul := PrimFloat.mul;
  fdiv := PrimFloat.div;
  fltb := PrimFloat.ltb;
  feqb := PrimFloat.eqb;
  py_int := b64_int;
  py_round := b64_round;
  py_round_nd := b64_round_nd
}.

(** ** Random choice

    [DataFrame.sample(1)] draws from the process-wide generator.  The
    generator is the stream [rng] of raw draws; the state threaded through
    the code is the number of draws made so far. *)

Definition Rand (A : Type) : Type := nat -> result (A * nat).

Definition ret {A : Type} (a : A) : Rand A := fun n => Ok (a, n).

Definition lift {A : Type} (m : result A) : Rand A :=
  fun n => match m with Ok a => Ok (a, n) | Raise e => Raise e end.

Definition rbind {A B : Type} (m : Rand A) (k : A -> Rand B) : Rand B :=
  fun n => match m n with Ok (a, n') => k a n' | Raise e => Raise e end.

Notation "x <~ m ;; k" := (rbind m (fun x => k))
  (at level 61, m at next level, right associativity) : py_scope.

(** [for x in xs: acc = body(acc, x)] *)
Fixpoint for_each {A S : Type} (xs : list A) (body : S -> A -> Rand S) (acc : S)
  : Rand S :=
  match xs with
  | [] => ret acc
  | x :: xs' => rbind (body acc x) (for_each xs' body)
  end.

(** [pool.sample(1).iloc[0]]: raises [ValueError] on an empty frame. *)
Definition sample {A : Type} (rng : nat -> nat) (pool : list A) : Rand A :=
  fun n =>
    match nth_error pool (Nat.modulo (rng n) (List.length pool)) with
    | Some a => Ok (a, S n)
    | None => Raise ValueError
    end.

(** ** Calendar *)

Record datetime : Type := {
  year : Z; month : Z; day : Z;
  hour : Z; minute : Z; second : Z
}.

(** [t.date()] *)
Definition date (t : datetime) : Z * Z * Z := (year t, month t, day t).

Definition date_eq_dec (a b : Z * Z * Z) : {a = b} + {a <> b}.
Proof. repeat decide equality. Defined.

(** [len(set(xs))] *)
Definition count_distinct (xs : list (Z * Z * Z)) : Z :=
  Z.of_nat (List.length (nodup date_eq_dec xs)).

(** ** The recommender, [recommendations.py] *)

Section Recommender.

Context {F : Type} `{PyFloat F}.

Local Open Scope py_scope.

(** *** Data *)

(** The profile dictionary built by the callers. *)
Record user_profile : Type := {
  dietary_preferences : entry string;
  height : entry F;
  weight : entry F;
  age : entry Z;
  gender : entry string;
  activity_level : entry string;
  goals : entry string
}.

(** A row of the food data frame. *)
Record food : Type := {
  food_label : string;
  food_weight : F;
  food_calories : F;
  food_protein : F;
  food_carbohydrates : F;
  food_fats : F
}.

(** [self]: the frame is [None] when the data could not be loaded. *)
Record MealRecommender : Type := {
  food_database : option (list food)
}.

Record macros_dict : Type := {
  macros_protein : F;
  macros_carbs : F;
  macros_fat : F
}.

Record macro_targets : Type := {
  protein_g : Z;
  carbs_g : Z;
  fat_g : Z;
  protein_pct : F;
  carbs_pct : F;
  fat_pct : F
}.

(** A meal of a day plan.  [m_serving_size] is the number formatted into
    the string [f"{serving_size}g"]. *)
Record meal : Type := {
  m_type : string;
  m_name : string;
  m_calories : Z;
  m_protein : F;
  m_carbs : F;
  m_fat : F;
  m_servings : F;
  m_serving_size : F;
  m_recipe_link : string
}.

Record day_plan : Type := {
  meals : list meal;
  totalCalories : Z;
  totalProtein : F;
  totalCarbs : F;
  totalFat : F
}.

(** The plan: a [dict] from day name to day plan. *)
Definition week_plan : Type := list (string * day_plan).

(** A row of the food log table. *)
Record food_log : Type := {
  log_calories : F;
  log_protein : F;
  log_carbs : F;
  log_fat : F;
  log_fiber : option F;
  log_sugar : option F;
  logged_at : datetime
}.

Record insight : Type := {
  category : string;
  message : string;
  recommendation : string;
  priority : string
}.

Record macronutrient_ratios : Type := {
  protein_percentage : F;
  carbs_percentage : F;
  fat_percentage : F
}.

Record daily_averages : Type := {
  avg_calories : F;
  avg_protein : F;
  avg_carbs : F;
  avg_fat : F;
  avg_fiber : F;
  avg_sugar : F
}.

(** The two shapes of dictionary that [get_nutrition_insights] returns. *)
Inductive insight_report : Type :=
| NotEnoughData (msg : string) (insights : list insight)
| Report (ratios : macronutrient_ratios) (averages : daily_averages)
         (insights : list insight) (food_recommendations : list string).

(** *** [_calculate_daily_calories] *)

Definition activity_multipliers : list (string * F) :=
  [ ("sedentary", dec 12 1);
    ("lightly_active", dec 1375 3);
    ("moderately_active", dec 155 2);
    ("very_active", dec 1725 3);
    ("extra_active", dec 19 1) ].

(** [activity_multipliers.get(level, default)]; the key [None] is not in
    the table. *)
Definition activity_multipliers_get (level : entry string) (default : F) : F :=
  match level with
  | Val s =>
      match dict_get activity_multipliers s with
      | Some x => x
      | None => default
      end
  | _ => default
  end.

(** The Mifflin-St Jeor base, for the lowered gender text. *)
Definition mifflin_st_jeor (gender : string) (weight height : F) (age : Z) : F :=
  if String.eqb gender "male"
  then (of_int 10 * weight + dec 625 2 * height - of_int (5 * age) + of_int 5)%num
  else (of_int 10 * weight + dec 625 2 * height - of_int (5 * age) - of_int 161)%num.

Definition _calculate_daily_calories (p : user_profile) : result Z :=
  let base_calories := 1800 in
  if has_key (weight p) && has_key (height p) && has_key (age p)
     && has_key (gender p) && has_key (activity_level p)
  then
    weight <- entry_float (weight p) ;;
    height <- entry_float (height p) ;;
    age <- entry_int (age p) ;;
    gender <- entry_lower (gender p) ;;
    let base_calories := mifflin_st_jeor gender weight height age in
    let activity_level :=
      match activity_level p with
      | Missing => Val "moderately_active"
      | e => e
      end in
    let daily_calories :=
      (base_calories * activity_multipliers_get activity_level (dec 155 2))%num in
    daily_calories <-
      (if has_key (goals p)
       then
         goals <- entry_lower (goals p) ;;
         if str_in "weight_loss" goals then Ok (daily_calories * dec 85 2)%num
         else if str_in "weight_gain" goals then Ok (daily_calories * dec 115 2)%num
         else Ok daily_calories
       else Ok daily_calories) ;;
    py_int daily_calories
  else Ok base_calories.

(** *** [_calculate_macros] *)

(** The split chosen from the goal text. *)
Definition macros_of_goals (p : user_profile) : result macros_dict :=
  let macros :=
    {| macros_protein := dec 25 2; macros_carbs := dec 5 1; macros_fat := dec 25 2 |} in
  if has_key (goals p)
  then
    goals <- entry_lower (goals p) ;;
    if str_in "weight_loss" goals then
      Ok {| macros_protein := dec 30 2; macros_carbs := dec 40 2; macros_fat := dec 30 2 |}
    else if str_in "weight_gain" goals then
      Ok {| macros_protein := dec 25 2; macros_carbs := dec 55 2; macros_fat := dec 20 2 |}
    else if str_in "muscle_gain" goals then
      Ok {| macros_protein := dec 35 2; macros_carbs := dec 45 2; macros_fat := dec 20 2 |}
    else Ok macros
  else Ok macros.

Definition _calculate_macros (p : user_profile) (daily_calories : Z)
  : result macro_targets :=
  macros <- macros_of_goals p ;;
  protein_g <- py_round ((of_int daily_calories * macros_protein macros) / of_int 4)%num ;;
  carbs_g <- py_round ((of_int daily_calories * macros_carbs macros) / of_int 4)%num ;;
  fat_g <- py_round ((of_int daily_calories * macros_fat macros) / of_int 9)%num ;;
  Ok {| protein_g := protein_g;
        carbs_g := carbs_g;
        fat_g := fat_g;
        protein_pct := (macros_protein macros * of_int 100)%num;
        carbs_pct := (macros_carbs macros * of_int 100)%num;
        fat_pct := (macros_fat macros * of_int 100)%num |}.

(** *** [_filter_by_meal_type] and [_generate_day_plan] *)

Definition breakfast_keywords : list string :=
  ["pancakes"; "waffles"; "french_toast"; "eggs"; "omelette"; "breakfast"].
Definition lunch_keywords : list string :=
  ["sandwich"; "salad"; "soup"; "wrap"; "bowl"].
Definition dinner_keywords : list string :=
  ["steak"; "chicken"; "fish"; "salmon"; "pasta"; "rice"; "bowl"].
Definition snack_keywords : list string :=
  ["fruit"; "yogurt"; "nuts"; "hummus"; "bar"].
Definition meat_keywords : list string :=
  ["beef"; "chicken"; "pork"; "turkey"; "meat"; "fish"; "salmon"].

(** [df[df['label'].str.lower().str.contains('|'.join(keywords))]] *)
Definition label_contains (keywords : list string) (f : food) : bool :=
  contains_any keywords (lower (food_label f)).

Definition _filter_by_meal_type (foods_df : list food) (meal_type : string)
  : list food :=
  if String.eqb meal_type "breakfast" then
    filter (label_contains breakfast_keywords) foods_df
  else if String.eqb meal_type "lunch" then
    filter (label_contains lunch_keywords) foods_df
  else if String.eqb meal_type "dinner" then
    filter (label_contains dinner_keywords) foods_df
  else if String.eqb meal_type "snack" then
    filter (label_contains snack_keywords) foods_df
  else foods_df.

Definition meal_distribution : list (string * F) :=
  [ ("breakfast", dec 25 2);
    ("lunch", dec 35 2);
    ("dinner", dec 30 2);
    ("snack", dec 10 2) ].

(** The calorie target of one meal, [int(total_calories * percentage)]. *)
Definition meal_calories_of (total_calories : Z) (percentage : F) : result Z :=
  py_int (of_int total_calories * percentage)%num.

(** [round(x, n)] on a value read from the frame, a [numpy.float64]:
    scale by [10^n], round to the nearest integer, unscale. *)
Definition np_round (x : F) (n : Z) : F :=
  let s := of_int (10 ^ n) in
  match py_round (x * s)%num with
  | Ok z => (of_int z / s)%num
  | Raise _ => (x * s / s)%num
  end.

(** [preferences], then the frame without the meat rows for a vegetarian. *)
Definition filter_preferences (foods : list food) (p : user_profile)
  : result (list food) :=
  preferences <-
    match dietary_preferences p with
    | Missing => Ok (lower "")
    | e => entry_lower e
    end ;;
  if str_in "vegetarian" preferences
  then Ok (filter (fun f => negb (label_contains meat_keywords f)) foods)
  else Ok foods.

(** The body of the loop over [meal_distribution.items()]. *)
Definition add_meal (rng : nat -> nat) (total_calories : Z)
    (filtered_foods : list food) (meal_plan : day_plan) (item : string * F)
  : Rand day_plan :=
  let (meal_type, percentage) := item in
  meal_calories <~ lift (meal_calories_of total_calories percentage) ;;
  let suitable_foods := _filter_by_meal_type filtered_foods meal_type in
  let suitable_foods :=
    match suitable_foods with
    | [] => filtered_foods
    | _ => suitable_foods
    end in
  food <~ sample rng suitable_foods ;;
  let serving_size := food_weight food in
  let calories_per_serving := food_calories food in
  let servings :=
    (of_int meal_calories / py_max calories_per_serving (of_int 1))%num in
  calories <~ lift (py_int (calories_per_serving * servings)%num) ;;
  let meal :=
    {| m_type := meal_type;
       m_name := food_label food;
       m_calories := calories;
       m_protein := np_round (food_protein food * servings)%num 1;
       m_carbs := np_round (food_carbohydrates food * servings)%num 1;
       m_fat := np_round (food_fats food * servings)%num 1;
       m_servings := np_round servings 2;
       m_serving_size := serving_size;
       m_recipe_link :=
         "https://example.com/recipes/"
         ++ replace_char " " "-" (lower (food_label food)) |} in
  ret {| meals := (meals meal_plan ++ [meal])%list;
         totalCalories := totalCalories meal_plan + m_calories meal;
         totalProtein := (totalProtein meal_plan + m_protein meal)%num;
         totalCarbs := (totalCarbs meal_plan + m_carbs meal)%num;
         totalFat := (totalFat meal_plan + m_fat meal)%num |}.

Definition _generate_day_plan (self : MealRecommender) (rng : nat -> nat)
    (total_calories : Z) (macros : macro_targets) (p : user_profile)
  : Rand day_plan :=
  let meal_plan :=
    {| meals := []; totalCalories := 0; totalProtein := of_int 0;
       totalCarbs := of_int 0; totalFat := of_int 0 |} in
  match food_database self with
  | None => lift (Raise AttributeError)
  | Some foods =>
      filtered_foods <~ lift (filter_preferences foods p) ;;
      meal_plan <~ for_each meal_distribution
                     (add_meal rng total_calories filtered_foods) meal_plan ;;
      ret {| meals := meals meal_plan;
             totalCalories := totalCalories meal_plan;
             totalProtein := np_round (totalProtein meal_plan) 1;
             totalCarbs := np_round (totalCarbs meal_plan) 1;
             totalFat := np_round (totalFat meal_plan) 1 |}
  end.

(** *** [generate_meal_plan] *)

Definition days_of_week : list string :=
  ["monday"; "tuesday"; "wednesday"; "thursday"; "friday"; "saturday"; "sunday"].

(** [range(days)] *)
Definition range (days : Z) : list nat := seq 0 (Z.to_nat days).

(** The body of the [try] block. *)
Definition generate_meal_plan_body (self : MealRecommender) (rng : nat -> nat)
    (p : user_profile) (days : Z) : Rand week_plan :=
  daily_calories <~ lift (_calculate_daily_calories p) ;;
  macros <~ lift (_calculate_macros p daily_calories) ;;
  for_each (range days)
    (fun meal_plan i =>
       let day := nth (Nat.modulo i 7) days_of_week "" in
       plan <~ _generate_day_plan self rng daily_calories macros p ;;
       ret (dict_set meal_plan day plan))
    [].

(** [None] stands for the [None] that the method returns when the frame is
    not loaded or when an exception was caught. *)
Definition generate_meal_plan (self : MealRecommender) (rng : nat -> nat)
    (p : user_profile) (days : Z) : option week_plan :=
  match food_database self with
  | None => None
  | Some _ =>
      match generate_meal_plan_body self rng p days 0%nat with
      | Ok (meal_plan, _) => Some meal_plan
      | Raise _ => None
      end
  end.

(** *** [_generate_food_recommendations] *)

Definition vegetarian_protein_foods : list string :=
  [ "Greek yogurt (high protein dairy)";
    "Lentils (plant-based protein)";
    "Tofu (complete plant protein)";
    "Chickpeas (protein and fiber)";
    "Quinoa (complete protein grain)" ].

Definition protein_foods : list string :=
  [ "Chicken breast (lean protein)";
    "Greek yogurt (high protein dairy)";
    "Eggs (complete protein)";
    "Tuna (lean protein source)";
    "Turkey (lean meat protein)" ].

(** "Recommendation for reducing carbs" *)
Definition reduce_carbs_foods : list string :=
  [ "Replace refined grains with vegetables";
    "Choose lower-carb fruits like berries";
    "Include more leafy greens" ].

(** "Recommendation for increasing carbs" *)
Definition increase_carbs_foods : list string :=
  [ "Oatmeal (complex carbs with fiber)";
    "Sweet potatoes (nutrient-dense carb source)";
    "Brown rice (whole grain carb source)";
    "Bananas (carbs with potassium)";
    "Whole grain bread (complex carbs)" ].

(** "Recommendation for healthier fats" *)
Definition healthier_fat_foods : list string :=
  [ "Choose lean protein sources";
    "Use olive oil instead of butter";
    "Include fatty fish like salmon" ].

(** "Recommendation for increasing healthy fats" *)
Definition increase_fat_foods : list string :=
  [ "Avocados (healthy monounsaturated fats)";
    "Nuts (healthy fats and protein)";
    "Olive oil (healthy cooking oil)";
    "Chia seeds (omega-3 fatty acids)";
    "Fatty fish like salmon (omega-3 sources)" ].

Definition fiber_foods : list string :=
  [ "Chia seeds (high in soluble fiber)";
    "Berries (fruit with high fiber)";
    "Lentils (protein and fiber)";
    "Broccoli (vegetable with fiber)";
    "Oats (whole grain with beta-glucan fiber)" ].

Definition sugar_foods : list string :=
  [ "Replace sugary drinks with water or herbal tea";
    "Choose whole fruits instead of fruit juices";
    "Read labels for hidden added sugars";
    "Try cinnamon as a natural sweetener";
    "Gradually reduce sugar in coffee/tea" ].

Definition general_foods : list string :=
  [ "Eat a variety of colorful fruits and vegetables";
    "Choose whole grains over refined grains";
    "Include lean proteins in your meals";
    "Stay hydrated by drinking water throughout the day";
    "Limit highly processed foods and added sugars" ].

(** [x in xs] for a list of strings *)
Definition mem (x : string) (xs : list string) : bool :=
  existsb (String.eqb x) xs.

(** [any(word in i["message"] and "high" in i["message"] for i in insights)] *)
Definition any_message_high (word : string) (insights : list insight) : bool :=
  existsb (fun i => str_in word (message i) && str_in "high" (message i)) insights.

Definition _generate_food_recommendations (insights : list insight)
    (p : user_profile) : result (list string) :=
  let recommendations : list string := [] in
  let categories_to_improve :=
    map category
      (filter (fun i => mem (priority i) ["high"; "medium"]) insights) in
  recommendations <-
    (if mem "protein" categories_to_improve then
       preferences <-
         match dietary_preferences p with
         | Missing => Ok (lower "")
         | e => entry_lower e
         end ;;
       if str_in "vegetarian" preferences
       then Ok (recommendations ++ vegetarian_protein_foods)%list
       else Ok (recommendations ++ protein_foods)%list
     else Ok recommendations) ;;
  let recommendations :=
    if mem "carbs" categories_to_improve then
      if any_message_high "carbs" insights
      then (recommendations ++ reduce_carbs_foods)%list
      else (recommendations ++ increase_carbs_foods)%list
    else recommendations in
  let recommendations :=
    if mem "fat" categories_to_improve then
      if any_message_high "fat" insights
      then (recommendations ++ healthier_fat_foods)%list
      else (recommendations ++ increase_fat_foods)%list
    else recommendations in
  let recommendations :=
    if mem "fiber" categories_to_improve
    then (recommendations ++ fiber_foods)%list
    else recommendations in
  let recommendations :=
    if mem "sugar" categories_to_improve
    then (recommendations ++ sugar_foods)%list
    else recommendations in
  let recommendations :=
    match recommendations with
    | [] => general_foods
    | _ => recommendations
    end in
  Ok (firstn 10 recommendations).

(** *** [get_nutrition_insights] *)

(** [sum(xs)]: the running total starts from the int [0]. *)
Definition py_sum (xs : list F) : F := fold_left fadd xs (of_int 0).

(** [x or 0] for an optional number *)
Definition or_zero (x : option F) : F :=
  match x with
  | Some v => if feqb v (of_int 0) then of_int 0 else v
  | None => of_int 0
  end.

Definition protein_insights (protein_pct : F) : list insight :=
  if (protein_pct <? of_int 10)%num then
    [ {| category := "protein";
         message := "Your protein intake is very low. Protein is essential for muscle maintenance and recovery.";
         recommendation := "Try to include more lean protein sources like chicken, fish, tofu, or legumes.";
         priority := "high" |} ]
  else if (protein_pct <? of_int 15)%num then
    [ {| category := "protein";
         message := "Your protein intake could be higher for optimal health.";
         recommendation := "Consider adding more protein-rich foods to your meals.";
         priority := "medium" |} ]
  else if (protein_pct >? of_int 35)%num then
    [ {| category := "protein";
         message := "Your protein intake is quite high. While protein is important, balance is key.";
         recommendation := "Consider diversifying your diet with more fruits, vegetables, and whole grains.";
         priority := "medium" |} ]
  else [].

Definition carbs_low_insight : insight :=
  {| category := "carbs";
     message := "Your carbohydrate intake is low. Carbs are your body's main energy source.";
     recommendation := "Include more complex carbohydrates like whole grains, fruits, and vegetables.";
     priority := "medium" |}.

Definition carbs_high_insight : insight :=
  {| category := "carbs";
     message := "Your diet is very high in carbohydrates.";
     recommendation := "Try to balance your meals with more protein and healthy fats.";
     priority := "medium" |}.

Definition carbs_insights (carbs_pct : F) : list insight :=
  if (carbs_pct <? of_int 30)%num then [carbs_low_insight]
  else if (carbs_pct >? of_int 65)%num then [carbs_high_insight]
  else [].

Definition fat_insights (fat_pct : F) : list insight :=
  if (fat_pct <? of_int 15)%num then
    [ {| category := "fat";
         message := "Your fat intake is low. Healthy fats are essential for hormone production and nutrient absorption.";
         recommendation := "Include sources of healthy fats like avocados, nuts, seeds, and olive oil.";
         priority := "medium" |} ]
  else if (fat_pct >? of_int 40)%num then
    [ {| category := "fat";
         message := "Your fat intake is high. While healthy fats are important, they're also calorie-dense.";
         recommendation := "Focus on healthy fat sources and consider moderating overall fat intake.";
         priority := "medium" |} ]
  else [].

Definition fiber_insights (avg_fiber : F) : list insight :=
  if (avg_fiber <? of_int 25)%num then
    [ {| category := "fiber";
         message := "Your fiber intake appears to be below recommendations. Fiber is important for digestive health.";
         recommendation := "Add more fruits, vegetables, legumes, and whole grains to increase your fiber intake.";
         priority := "medium" |} ]
  else [].

Definition sugar_insights (avg_sugar : F) : list insight :=
  if (avg_sugar >? of_int 50)%num then
    [ {| category := "sugar";
         message := "Your sugar intake appears to be high. Excessive sugar consumption is linked to various health issues.";
         recommendation := "Try to reduce added sugars in your diet by limiting sweetened beverages and processed foods.";
         priority := "high" |} ]
  else [].

Definition calorie_insights (avg_calories : F) (p : user_profile)
  : result (list insight) :=
  if has_key (weight p) && has_key (height p) && has_key (age p)
     && has_key (gender p)
  then
    estimated_calories <- _calculate_daily_calories p ;;
    if (avg_calories <? of_int estimated_calories * dec 7 1)%num then
      shown <- py_int avg_calories ;;
      Ok [ {| category := "calories";
              message := "Your average calorie intake (" ++ str_of_int shown
                         ++ ") is much lower than your estimated needs ("
                         ++ str_of_int estimated_calories ++ ").";
              recommendation := "Consider eating more nutrient-dense foods to meet your energy requirements.";
              priority := "high" |} ]
    else if (avg_calories >? of_int estimated_calories * dec 13 1)%num then
      shown <- py_int avg_calories ;;
      Ok [ {| category := "calories";
              message := "Your average calorie intake (" ++ str_of_int shown
                         ++ ") is higher than your estimated needs ("
                         ++ str_of_int estimated_calories ++ ").";
              recommendation := "Consider monitoring portion sizes if weight maintenance is your goal.";
              priority := "medium" |} ]
    else Ok []
  else Ok [].

(** The three shares of the calories that the logged macronutrients carry. *)
Definition calorie_distribution (total_protein total_carbs total_fat : F)
  : F * F * F :=
  let calories_from_protein := (total_protein * of_int 4)%num in
  let calories_from_carbs := (total_carbs * of_int 4)%num in
  let calories_from_fat := (total_fat * of_int 9)%num in
  let total_calorie_sum :=
    (calories_from_protein + calories_from_carbs + calories_from_fat)%num in
  if (total_calorie_sum >? of_int 0)%num then
    ((calories_from_protein / total_calorie_sum * of_int 100)%num,
     (calories_from_carbs / total_calorie_sum * of_int 100)%num,
     (calories_from_fat / total_calorie_sum * of_int 100)%num)
  else (of_int 0, of_int 0, of_int 0).

Definition get_nutrition_insights (user_food_logs : list food_log)
    (p : user_profile) : result insight_report :=
  match user_food_logs with
  | [] =>
      Ok (NotEnoughData
            "Not enough data for insights. Log more meals for personalized nutrition insights."
            [])
  | _ =>
      let total_calories := py_sum (map log_calories user_food_logs) in
      let total_protein := py_sum (map log_protein user_food_logs) in
      let total_carbs := py_sum (map log_carbs user_food_logs) in
      let total_fat := py_sum (map log_fat user_food_logs) in
      let total_fiber := py_sum (map (fun l => or_zero (log_fiber l)) user_food_logs) in
      let total_sugar := py_sum (map (fun l => or_zero (log_sugar l)) user_food_logs) in
      let days :=
        Z.max 1 (count_distinct (map (fun l => date (logged_at l)) user_food_logs)) in
      let avg_calories := (total_calories / of_int days)%num in
      let avg_protein := (total_protein / of_int days)%num in
      let avg_carbs := (total_carbs / of_int days)%num in
      let avg_fat := (total_fat / of_int days)%num in
      let avg_fiber := (total_fiber / of_int days)%num in
      let avg_sugar := (total_sugar / of_int days)%num in
      let '(protein_pct, carbs_pct, fat_pct) :=
        calorie_distribution total_protein total_carbs total_fat in
      let insights :=
        (protein_insights protein_pct ++ carbs_insights carbs_pct
         ++ fat_insights fat_pct ++ fiber_insights avg_fiber
         ++ sugar_insights avg_sugar)%list in
      calories <- calorie_insights avg_calories p ;;
      let insights := (insights ++ calories)%list in
      food_recommendations <- _generate_food_recommendations insights p ;;
      Ok (Report
            {| protein_percentage := py_round_nd protein_pct 1;
               carbs_percentage := py_round_nd carbs_pct 1;
               fat_percentage := py_round_nd fat_pct 1 |}
            {| avg_calories := py_round_nd avg_calories 1;
               avg_protein := py_round_nd avg_protein 1;
               avg_carbs := py_round_nd avg_carbs 1;
               avg_fat := py_round_nd avg_fat 1;
               avg_fiber := py_round_nd avg_fiber 1;
               avg_sugar := py_round_nd avg_sugar 1 |}
            insights
            food_recommendations)
  end.

End Recommender.

Arguments user_profile F : clear implicits.
Arguments food F : clear implicits.
Arguments MealRecommender F : clear implicits.
Arguments macros_dict F : clear implicits.
Arguments macro_targets F : clear implicits.
Arguments meal F : clear implicits.
Arguments day_plan F : clear implicits.
Arguments week_plan F : clear implicits.
Arguments food_log F : clear implicits.
Arguments macronutrient_ratios F : clear implicits.
Arguments daily_averages F : clear implicits.
Arguments insight_report F : clear implicits.

(** ** The routes of [backend/main.py] that compute the same quantities *)

Module Main.

Section Routes.

Context {F : Type} `{PyFloat F}.

Local Open Scope py_scope.

(** The columns of [models.User] that the routes read. *)
Record User : Type := {
  dietary_preferences : option string;
  height : option F;
  weight : option F;
  age : option Z;
  gender : option string;
  activity_level : option string;
  goals : option string
}.

(** Truth value of an optional string and of an optional number. *)
Definition truthy_str (s : option string) : bool :=
  match s with
  | Some EmptyString | None => false
  | Some _ => true
  end.

Definition truthy_float (x : option F) : bool :=
  match x with
  | Some v => negb (feqb v (of_int 0))
  | None => false
  end.

Definition truthy_int (x : option Z) : bool :=
  match x with
  | Some v => negb (Z.eqb v 0)
  | None => false
  end.

(** [generate_meal_plan], the daily calorie target. *)
Definition daily_calories (current_user : User) : result Z :=
  let base_calories :=
    match gender current_user, weight current_user,
          height current_user, age current_user with
    | Some g, Some w, Some h, Some a =>
        if truthy_str (gender current_user) && truthy_float (weight current_user)
           && truthy_float (height current_user) && truthy_int (age current_user)
        then mifflin_st_jeor (lower g) w h a
        else of_int 2000
    | _, _, _, _ => of_int 2000
    end in
  let activity_level :=
    if truthy_str (activity_level current_user)
    then match activity_level current_user with
         | Some s => Val s
         | None => PyNone
         end
    else Val "moderately_active" in
  daily_calories <-
    py_int (base_calories * activity_multipliers_get activity_level (dec 155 2))%num ;;
  if truthy_str (goals current_user) then
    match goals current_user with
    | Some g =>
        if str_in "weight_loss" (lower g)
        then py_int (of_int daily_calories * dec 8 1)%num
        else if str_in "weight_gain" (lower g)
        then py_int (of_int daily_calories * dec 115 2)%num
        else Ok daily_calories
    | None => Ok daily_calories
    end
  else Ok daily_calories.

Definition meal_types : list string := ["breakfast"; "lunch"; "dinner"; "snack"].

(** [generate_meal_plan], the calorie target of one meal. *)
Definition meal_calories (daily_calories : Z) (meal_type : string) : result Z :=
  if String.eqb meal_type "breakfast" then
    py_int (of_int daily_calories * dec 25 2)%num
  else if String.eqb meal_type "lunch" then
    py_int (of_int daily_calories * dec 3 1)%num
  else if String.eqb meal_type "dinner" then
    py_int (of_int daily_calories * dec 3 1)%num
  else
    py_int (of_int daily_calories * dec 15 2)%num.

(** The insight dictionaries of the route have no recommendation key. *)
Record insight : Type := {
  category : string;
  message : string;
  priority : string
}.

(** The columns of [models.FoodLog] that the route reads. *)
Record FoodLog : Type := {
  calories : F;
  protein : F;
  carbs : F;
  fat : F
}.

Record NutritionInsights : Type := {
  protein_percentage : F;
  carbs_percentage : F;
  fat_percentage : F;
  insights : list insight;
  food_recommendations : list string
}.

(** [get_nutrition_insights], from the logs that the query returned. *)
Definition get_nutrition_insights (food_logs : list FoodLog) : NutritionInsights :=
  let total_of (col : FoodLog -> F) :=
    match food_logs with
    | [] => of_int 0
    | _ => py_sum (map col food_logs)
    end in
  let total_calories := total_of calories in
  let total_protein := total_of protein in
  let total_carbs := total_of carbs in
  let total_fat := total_of fat in
  let '(protein_pct, carbs_pct, fat_pct) :=
    if (total_calories >? of_int 0)%num then
      (py_round_nd (total_protein * of_int 4 / total_calories * of_int 100)%num 1,
       py_round_nd (total_carbs * of_int 4 / total_calories * of_int 100)%num 1,
       py_round_nd (total_fat * of_int 9 / total_calories * of_int 100)%num 1)
    else (of_int 0, of_int 0, of_int 0) in
  let insights : list insight := [] in
  let insights :=
    if (protein_pct <? of_int 15)%num then
      (insights ++
       [ {| category := "protein";
            message := "Your protein intake is below recommended levels. Consider adding more lean protein sources like chicken, fish, tofu, or legumes to your diet.";
            priority := "high" |} ])%list
    else if (protein_pct >? of_int 35)%num then
      (insights ++
       [ {| category := "protein";
            message := "Your protein intake is relatively high. While protein is important, ensure you're getting a balanced diet with adequate carbs and healthy fats.";
            priority := "medium" |} ])%list
    else insights in
  let insights :=
    if (carbs_pct <? of_int 30)%num then
      (insights ++
       [ {| category := "carbs";
            message := "Your carbohydrate intake is relatively low. Consider adding more healthy carbs like whole grains, fruits, and vegetables for sustained energy.";
            priority := "medium" |} ])%list
    else if (carbs_pct >? of_int 65)%num then
      (insights ++
       [ {| category := "carbs";
            message := "Your diet is very high in carbohydrates. Try to include more protein and healthy fats for better macronutrient balance.";
            priority := "high" |} ])%list
    else insights in
  let insights :=
    if (fat_pct <? of_int 20)%num then
      (insights ++
       [ {| category := "fat";
            message := "Your fat intake is lower than recommended. Healthy fats from nuts, avocados, olive oil, and fatty fish are important for hormone production and vitamin absorption.";
            priority := "medium" |} ])%list
    else if (fat_pct >? of_int 40)%num then
      (insights ++
       [ {| category := "fat";
            message := "Your fat intake is higher than recommended. Focus on healthy fat sources and consider reducing overall fat consumption slightly.";
            priority := "medium" |} ])%list
    else insights in
  let insights :=
    if (List.length food_logs <? 10)%nat then
      [ {| category := "general";
           message := "Keep logging your meals regularly to receive personalized nutrition insights!";
           priority := "medium" |};
        {| category := "hydration";
           message := "Don't forget to stay hydrated by drinking water throughout the day.";
           priority := "medium" |} ]
    else insights in
  let recommendations : list string := [] in
  let recommendations :=
    if (protein_pct <? of_int 20)%num then
      (recommendations ++
       [ "Greek yogurt (high protein, low fat dairy)";
         "Chicken breast (lean protein source)";
         "Lentils (plant-based protein and fiber)" ])%list
    else recommendations in
  let recommendations :=
    if (carbs_pct >? of_int 60)%num then
      (recommendations ++
       [ "Replace refined grains with whole grains like brown rice";
         "Include more vegetables in place of starchy sides" ])%list
    else recommendations in
  let recommendations :=
    if (fat_pct <? of_int 20)%num then
      (recommendations ++
       [ "Avocados (healthy monounsaturated fats)";
         "Nuts and seeds (healthy fats and protein)";
         "Olive oil (healthy cooking oil rich in antioxidants)" ])%list
    else recommendations in
  let recommendations :=
    match recommendations with
    | [] =>
        [ "Aim for a colorful plate with a variety of fruits and vegetables";
          "Include lean proteins, healthy fats, and complex carbohydrates in each meal";
          "Stay hydrated by drinking water throughout the day" ]
    | _ => recommendations
    end in
  {| protein_percentage := protein_pct;
     carbs_percentage := carbs_pct;
     fat_percentage := fat_pct;
     insights := insights;
     food_recommendations := recommendations |}.

End Routes.

Arguments User F : clear implicits.
Arguments FoodLog F : clear implicits.
Arguments NutritionInsights F : clear implicits.

End Main.

(** ** The orderings and predicates that the properties are stated with *)

(** The activity levels, in increasing order. *)
Definition activity_levels : list string :=
  ["sedentary"; "lightly_active"; "moderately_active"; "very_active"; "extra_active"].

(** The profile [p] with the key [activity_level] set to [level]. *)
Definition set_activity_level {F : Type} (p : user_profile F) (level : string)
  : user_profile F :=
  {| dietary_preferences := dietary_preferences p;
     height := height p;
     weight := weight p;
     age := age p;
     gender := gender p;
     activity_level := Val level;
     goals := goals p |}.

(** The calories that the gram targets [m] stand for. *)
Definition calories_of_grams {F : Type} (m : macro_targets F) : Z :=
  protein_g m * 4 + carbs_g m * 4 + fat_g m * 9.

(** The meal [m] is the entry for [item] of a share table, on a day with
    [total_calories]: it has the meal type of [item], and its servings and
    calories are those of some food scaled to the target
    [int(total_calories * share)]. *)
Definition scaled_to_share {F : Type} `{PyFloat F} (total_calories : Z)
    (item : string * F) (m : meal F) : Prop :=
  m_type m = fst item /\
  exists (target : Z) (f : food F),
    meal_calories_of total_calories (snd item) = Ok target /\
    m_name m = food_label f /\
    let servings :=
      (of_int target / py_max (food_calories f) (of_int 1))%num in
    m_servings m = np_round servings 2 /\
    py_int (food_calories f * servings)%num = Ok (m_calories m).

(** The insights of a report; a report without the key has none. *)
Definition insights_of {F : Type} (r : insight_report F) : list insight :=
  match r with
  | NotEnoughData _ l => l
  | Report _ _ l _ => l
  end.

(** ** Sample inputs *)

(** The profile of the worked example of the specification. *)
Definition example_profile : user_profile float :=
  {| dietary_preferences := Missing;
     height := Val 175%float;
     weight := Val 70%float;
     age := Val 30;
     gender := Val "male";
     activity_level := Val "moderately_active";
     goals := Val "" |}.

(** The same person, without the key [activity_level]. *)
Definition profile_without_activity : user_profile float :=
  {| dietary_preferences := Missing;
     height := Val 175%float;
     weight := Val 70%float;
     age := Val 30;
     gender := Val "male";
     activity_level := Missing;
     goals := Missing |}.

(** The same person, sedentary, without the key [gender]. *)
Definition profile_without_gender : user_profile float :=
  {| dietary_preferences := Missing;
     height := Val 175%float;
     weight := Val 70%float;
     age := Val 30;
     gender := Missing;
     activity_level := Val "sedentary";
     goals := Missing |}.

(** The same two people as rows of the user table. *)
Definition user_without_activity : Main.User float :=
  {| Main.dietary_preferences := None;
     Main.height := Some 175%float;
     Main.weight := Some 70%float;
     Main.age := Some 30;
     Main.gender := Some "male";
     Main.activity_level := None;
     Main.goals := None |}.

Definition user_without_gender : Main.User float :=
  {| Main.dietary_preferences := None;
     Main.height := Some 175%float;
     Main.weight := Some 70%float;
     Main.age := Some 30;
     Main.gender := None;
     Main.activity_level := Some "sedentary";
     Main.goals := None |}.


Definition weight_loss_profile : user_profile float :=
  {| dietary_preferences := Missing;
     height := Val 175%float;
     weight := Val 70%float;
     age := Val 30;
     gender := Val "male";
     activity_level := Val "moderately_active";
     goals := Val "weight_loss" |}.

Definition vegetarian_profile : user_profile float :=
  {| dietary_preferences := Val "Vegetarian";
     height := Val 175%float;
     weight := Val 70%float;
     age := Val 30;
     gender := Val "male";
     activity_level := Val "moderately_active";
     goals := Val "" |}.


Definition sample_food (name : string) (grams kcal protein carbs fats : float)
  : food float :=
  {| food_label := name;
     food_weight := grams;
     food_calories := kcal;
     food_protein := protein;
     food_carbohydrates := carbs;
     food_fats := fats |}.

Definition sample_foods : list (food float) :=
  [ sample_food "Chicken Salad" 200 250 30 10 9;
    sample_food "Veggie Omelette" 150 220 14 4 16;
    sample_food "Grilled Salmon" 180 360 38 0 22;
    sample_food "Pasta Bowl" 300 420 15 70 8;
    sample_food "Fruit Yogurt" 150 120 6 20 2;
    sample_food "Beef Steak" 250 600 55 0 40;
    sample_food "Tofu Wrap" 220 310 18 36 10 ]%float.

Definition sample_recommender : MealRecommender float :=
  {| food_database := Some sample_foods |}.

(** A stream of draws. *)
Definition draws (n : nat) : nat := (n * n + 3 * n)%nat.

(** One logged meal with 17 g of protein, 70 g of carbohydrates and 7 g of
    fat: of its 411 kcal, 16.5% come from protein, 68.1% from
    carbohydrates and 15.3% from fat. *)
Definition high_carb_logs : list (food_log float) :=
  [ {| log_calories := 411%float;
       log_protein := 17%float;
       log_carbs := 70%float;
       log_fat := 7%float;
       log_fiber := Some 30%float;
       log_sugar := Some 10%float;
       logged_at := {| year := 2024; month := 5; day := 1;
                       hour := 12; minute := 0; second := 0 |} |} ].

(** One logged meal with 33 g of protein, 28 g of carbohydrates and 17 g
    of fat: of its 397 kcal, 33.2% come from protein, 28.2% from
    carbohydrates and 38.5% from fat. *)
Definition low_carb_logs : list (food_log float) :=
  [ {| log_calories := 397%float;
       log_protein := 33%float;
       log_carbs := 28%float;
       log_fat := 17%float;
       log_fiber := Some 30%float;
       log_sugar := Some 10%float;
       logged_at := {| year := 2024; month := 5; day := 1;
                       hour := 12; minute := 0; second := 0 |} |} ].

(** A profile dictionary without any of the keys. *)
Definition empty_profile : user_profile float :=
  {| dietary_preferences := Missing;
     height := Missing;
     weight := Missing;
     age := Missing;
     gender := Missing;
     activity_level := Missing;
     goals := Missing |}.

(** The keys of a dictionary after [d[k] = v], from the keys before. *)
Definition set_key (keys : list string) (k : string) : list string :=
  if mem k keys then keys else (keys ++ [k])%list.

(** ** Finite checks in double precision *)

(** A profile that holds the key [goals] only. *)
Definition profile_with_goals (g : entry string) : user_profile float :=
  {| dietary_preferences := Missing;
     height := Missing;
     weight := Missing;
     age := Missing;
     gender := Missing;
     activity_level := Missing;
     goals := g |}.

(** One profile for each of the four splits. *)
Definition goal_profiles : list (user_profile float) :=
  map profile_with_goals
    [Missing; Val "weight_loss"; Val "weight_gain"; Val "muscle_gain"].

(** The gram targets of [p] on [C] kcal stand for [C] kcal within
    [tolerance]. *)
Definition grams_within (tolerance : Z) (p : user_profile float) (C : Z) : bool :=
  match _calculate_macros p C with
  | Ok m => Z.leb (Z.abs (calories_of_grams m - C)) tolerance
  | Raise _ => false
  end.

(** The calorie totals 1 to 6000. *)
Definition calorie_totals : list Z := map Z.of_nat (seq 1 (Z.to_nat 6000)).

(** Profiles on a grid: weights 40 to 140 kg in steps of 20, heights 150
    to 200 cm in steps of 10, ages 20 to 80 in steps of 20, both genders,
    three goals. *)
Definition grid_profiles : list (user_profile float) :=
  flat_map (fun w =>
  flat_map (fun h =>
  flat_map (fun a =>
  flat_map (fun g =>
  map (fun goal =>
         {| dietary_preferences := Missing;
            height := Val (of_int h);
            weight := Val (of_int w);
            age := Val a;
            gender := Val g;
            activity_level := Missing;
            goals := goal |})
      [Missing; Val "weight_loss"; Val "weight_gain"])
    ["male"; "female"])
    (map (fun k => 20 + 20 * Z.of_nat k) (seq 0 4)))
    (map (fun k => 150 + 10 * Z.of_nat k) (seq 0 6)))
    (map (fun k => 40 + 20 * Z.of_nat k) (seq 0 6)).

(** The calories of [p] at each activity level, in increasing order of the
    levels. *)
Definition calories_along_levels {F : Type} `{PyFloat F} (p : user_profile F)
  : list (result Z) :=
  map (fun level => _calculate_daily_calories (set_activity_level p level))
      activity_levels.

(** All results are values, and they do not decrease. *)
Fixpoint nondecreasing (cs : list (result Z)) : bool :=
  match cs with
  | Ok a :: ((Ok b :: _) as rest) => Z.leb a b && nondecreasing rest
  | [Ok _] => true
  | [] => true
  | _ => false
  end.

(** ** Profiles that differ in one key *)

(** The profile [p] with the key [gender] set to [g]. *)
Definition set_gender {F : Type} (p : user_profile F) (g : string)
  : user_profile F :=
  {| dietary_preferences := dietary_preferences p;
     height := height p;
     weight := weight p;
     age := age p;
     gender := Val g;
     activity_level := activity_level p;
     goals := goals p |}.

(** The profile [p] with the key [goals] set to [g]. *)
Definition set_goals {F : Type} (p : user_profile F) (g : string)
  : user_profile F :=
  {| dietary_preferences := dietary_preferences p;
     height := height p;
     weight := weight p;
     age := age p;
     gender := gender p;
     activity_level := activity_level p;
     goals := Val g |}.

(** The profile [p] with the key [activity_level] holding [None]. *)
Definition clear_activity_level {F : Type} (p : user_profile F)
  : user_profile F :=
  {| dietary_preferences := dietary_preferences p;
     height := height p;
     weight := weight p;
     age := age p;
     gender := gender p;
     activity_level := PyNone;
     goals := goals p |}.

(** The goal that a goal text stands for: the first of the three goals, in
    the order in which the code tests them, that the lowered text
    contains. *)
Definition goal_class (g : string) : string :=
  if str_in "weight_loss" (lower g) then "weight_loss"
  else if str_in "weight_gain" (lower g) then "weight_gain"
  else if str_in "muscle_gain" (lower g) then "muscle_gain"
  else "".

(** [xs] is [ys] with some entries left out. *)
Fixpoint is_subsequence (xs ys : list string) {struct ys} : bool :=
  match ys with
  | [] => match xs with [] => true | _ => false end
  | y :: ys' =>
      match xs with
      | [] => true
      | x :: xs' =>
          if String.eqb x y then is_subsequence xs' ys' else is_subsequence xs ys'
      end
  end.

(** The categories of the insights that call for food recommendations. *)
Definition categories_to_improve (insights : list insight) : list string :=
  map category
    (filter (fun i => mem (priority i) ["high"; "medium"]) insights).

(** The message of the insight for too much fat. *)
Definition fat_high_message : string :=
  "Your fat intake is high. While healthy fats are important, they're also calorie-dense.".

(** ** The callers and the plan route of [backend/main.py] *)

Module Routes.

Section Routes.

Context {F : Type} `{PyFloat F}.

Local Open Scope py_scope.

(** A nullable column as the value of a dictionary key. *)
Definition optional_entry {A : Type} (x : option A) : entry A :=
  match x with
  | Some v => Val v
  | None => PyNone
  end.

(** The dictionary [user_dict] that the routes build from the user row;
    the keys [id], [email] and [full_name] are not read by the recommender. *)
Definition user_dict (current_user : Main.User F) : user_profile F :=
  {| dietary_preferences := optional_entry (Main.dietary_preferences current_user);
     height := optional_entry (Main.height current_user);
     weight := optional_entry (Main.weight current_user);
     age := optional_entry (Main.age current_user);
     gender := optional_entry (Main.gender current_user);
     activity_level := optional_entry (Main.activity_level current_user);
     goals := optional_entry (Main.goals current_user) |}.

Record HTTPException : Type := {
  status_code : Z;
  detail : string
}.

Inductive response (A : Type) : Type :=
| Returns (a : A)
| Raises (e : HTTPException).

Arguments Returns {A} a.
Arguments Raises {A} e.

(** [generate_ai_meal_plan], the response.  The row that the route adds to
    the table of meal plans before it returns is not part of the model. *)
Definition generate_ai_meal_plan (meal_recommender : MealRecommender F)
    (rng : nat -> nat) (days : Z) (current_user : Main.User F)
  : response (week_plan F) :=
  let user_dict := user_dict current_user in
  match generate_meal_plan meal_recommender rng user_dict days with
  | None | Some [] =>
      Raises {| status_code := 500; detail := "Failed to generate meal plan" |}
  | Some meal_plan => Returns meal_plan
  end.

(** [get_enhanced_nutrition_insights], from the rows [food_logs] that the
    query for the user and the period returned.  An exception of the
    recommender is not caught. *)
Definition get_enhanced_nutrition_insights (food_logs : list (food_log F))
    (current_user : Main.User F) : result (insight_report F) :=
  let user_dict := user_dict current_user in
  get_nutrition_insights food_logs user_dict.

(** *** [generate_meal_plan], the route [/meal-plan/generate] *)

(** A row of [food_nutrition_data]; the columns protein, carbs and fat are
    read with a default. *)
Record food_row : Type := {
  name : string;
  calories : F;
  protein : option F;
  carbs : option F;
  fat : option F
}.

Record meal : Type := {
  m_type : string;
  m_name : string;
  m_calories : Z;
  m_protein : F;
  m_carbs : F;
  m_fat : F;
  m_servings : F;
  m_recipe_link : string
}.

Record daily_plan : Type := {
  meals : list meal;
  totalCalories : Z;
  totalProtein : F;
  totalCarbs : F;
  totalFat : F
}.

Definition meat_keywords : list string :=
  ["chicken"; "beef"; "pork"; "turkey"; "fish"; "salmon"].

Definition days : list string :=
  ["monday"; "tuesday"; "wednesday"; "thursday"; "friday"; "saturday"; "sunday"].

(** [row.get(column, 0)] *)
Definition get_or_zero (x : option F) : F :=
  match x with
  | Some v => v
  | None => of_int 0
  end.

(** [x or ""] for a nullable text column *)
Definition or_empty (x : option string) : string :=
  match x with
  | Some s => s
  | None => ""
  end.

(** The body of the loop over [meal_types], with the running totals of
    the day in [acc]. *)
Definition add_meal (rng : nat -> nat) (daily_calories : Z)
    (filtered_foods : list food_row) (acc : daily_plan) (meal_type : string)
  : Rand daily_plan :=
  meal_calories <~ lift (Main.meal_calories daily_calories meal_type) ;;
  sample_food <~ sample rng filtered_foods ;;
  let servings :=
    (of_int meal_calories / py_max (calories sample_food) (of_int 1))%num in
  kcal <~ lift (py_int (calories sample_food * servings)%num) ;;
  let meal :=
    {| m_type := meal_type;
       m_name := name sample_food;
       m_calories := kcal;
       m_protein := np_round (get_or_zero (protein sample_food) * servings)%num 1;
       m_carbs := np_round (get_or_zero (carbs sample_food) * servings)%num 1;
       m_fat := np_round (get_or_zero (fat sample_food) * servings)%num 1;
       (* [max] returned the int 1: the quotient is a Python float *)
       m_servings :=
         if (calories sample_food <? of_int 1)%num
         then py_round_nd servings 2
         else np_round servings 2;
       m_recipe_link :=
         "https://example.com/recipes/"
         ++ replace_char " " "-" (lower (name sample_food)) |} in
  ret {| meals := (meals acc ++ [meal])%list;
         totalCalories := totalCalories acc + m_calories meal;
         totalProtein := (totalProtein acc + m_protein meal)%num;
         totalCarbs := (totalCarbs acc + m_carbs meal)%num;
         totalFat := (totalFat acc + m_fat meal)%num |}.

(** The plan of one day. *)
Definition plan_day (rng : nat -> nat) (daily_calories : Z)
    (filtered_foods : list food_row) : Rand daily_plan :=
  acc <~ for_each Main.meal_types (add_meal rng daily_calories filtered_foods)
           {| meals := []; totalCalories := 0; totalProtein := of_int 0;
              totalCarbs := of_int 0; totalFat := of_int 0 |} ;;
  ret {| meals := meals acc;
         totalCalories := totalCalories acc;
         totalProtein := np_round (totalProtein acc) 1;
         totalCarbs := np_round (totalCarbs acc) 1;
         totalFat := np_round (totalFat acc) 1 |}.

(** The frame without the meat rows for a vegetarian. *)
Definition filter_foods (food_nutrition_data : list food_row)
    (current_user : Main.User F) : list food_row :=
  let user_preferences := or_empty (Main.dietary_preferences current_user) in
  let is_vegetarian := str_in "vegetarian" (lower user_preferences) in
  if is_vegetarian
  then filter (fun f => negb (contains_any meat_keywords (lower (name f))))
              food_nutrition_data
  else food_nutrition_data.

(** [generate_meal_plan], the plan that the route returns.  The row that
    the route adds to the table of meal plans before it returns is not part
    of the model; an exception is not caught. *)
Definition generate_meal_plan (food_nutrition_data : list food_row)
    (rng : nat -> nat) (current_user : Main.User F)
  : Rand (list (string * daily_plan)) :=
  daily_calories <~ lift (Main.daily_calories current_user) ;;
  let filtered_foods := filter_foods food_nutrition_data current_user in
  for_each days
    (fun weekly_plan day =>
       plan <~ plan_day rng daily_calories filtered_foods ;;
       ret (dict_set weekly_plan day plan))
    [].

End Routes.

Arguments food_row F : clear implicits.
Arguments meal F : clear implicits.
Arguments daily_plan F : clear implicits.
Arguments Returns {A} a.
Arguments Raises {A} e.

End Routes.

(** ** The barcode lookup of [backend/ml_models.py] *)

Module MlModels.

(** [c.isdigit()], for ASCII *)
Definition isdigit (c : ascii) : bool :=
  let n := nat_of_ascii c in ((48 <=? n) && (n <=? 57))%nat.

(** [''.join(c for c in s if c.isdigit())] *)
Fixpoint digits (s : string) : string :=
  match s with
  | EmptyString => EmptyString
  | String c s' => if isdigit c then String c (digits s') else digits s'
  end.

(** The value of a text of digits, read from the left onto [acc]. *)
Fixpoint decimal (s : string) (acc : Z) : Z :=
  match s with
  | EmptyString => acc
  | String c s' => decimal s' (10 * acc + (Z.of_nat (nat_of_ascii c) - 48))
  end.

(** [int(s)] for a text of digits: the empty text is no number. *)
Definition int_of_digits (s : string) : result Z :=
  match s with
  | EmptyString => Raise ValueError
  | _ => Ok (decimal s 0)
  end.

Section Barcode.

(** What the data loader, which is not among the sources, returns for a
    food: its nutrition dictionary. *)
Variable nutrition : Type.

(** The two methods of the data loader that the scanner calls;
    [get_food_nutrition] returns [None] for [None] and for an empty
    dictionary. *)
Record data_loader : Type := {
  get_food_items : list string;
  get_food_nutrition : string -> option nutrition
}.

Record barcode_food : Type := {
  food_name : string;
  barcode_of : string;
  nutrition_of : nutrition;
  source : string
}.

(** [BarcodeScannerModel.lookup_barcode] *)
Definition lookup_barcode (self : data_loader) (barcode : string)
  : option barcode_food :=
  match int_of_digits (substring 0 6 (digits barcode)) with
  | Raise _ => None
  | Ok barcode_int =>
      let food_classes := get_food_items self in
      match food_classes with
      | [] => None
      | _ =>
          let food_index := barcode_int mod Z.of_nat (List.length food_classes) in
          match nth_error food_classes (Z.to_nat food_index) with
          | None => None
          | Some food_name =>
              match get_food_nutrition self food_name with
              | Some nutrition =>
                  Some {| food_name := food_name;
                          barcode_of := barcode;
                          nutrition_of := nutrition;
                          source := "barcode_database" |}
              | None => None
              end
          end
      end
  end.

End Barcode.

End MlModels.

(** ** Predicates and inputs of the further properties *)

(** [sum(xs)] for a list of ints. *)
Definition sum_Z (xs : list Z) : Z := fold_left Z.add xs 0.

(** The meal that [_generate_day_plan] makes of the food [f] for the entry
    [item] of the share table, with [calories] the truncated product. *)
Definition meal_of_food {F : Type} `{PyFloat F} (target : Z) (item : string * F)
    (f : food F) (calories : Z) : meal F :=
  let servings := (of_int target / py_max (food_calories f) (of_int 1))%num in
  {| m_type := fst item;
     m_name := food_label f;
     m_calories := calories;
     m_protein := np_round (food_protein f * servings)%num 1;
     m_carbs := np_round (food_carbohydrates f * servings)%num 1;
     m_fat := np_round (food_fats f * servings)%num 1;
     m_servings := np_round servings 2;
     m_serving_size := food_weight f;
     m_recipe_link :=
       "https://example.com/recipes/"
       ++ replace_char " " "-" (lower (food_label f)) |}.

(** [m] is the meal made for [item] on a day with [total_calories], of a
    food among [foods]. *)
Definition drawn_meal {F : Type} `{PyFloat F} (total_calories : Z)
    (foods : list (food F)) (item : string * F) (m : meal F) : Prop :=
  exists (target : Z) (f : food F) (calories : Z),
    meal_calories_of total_calories (snd item) = Ok target /\
    In f foods /\
    py_int (food_calories f
            * (of_int target / py_max (food_calories f) (of_int 1)))%num
    = Ok calories /\
    m = meal_of_food target item f calories.



(** One logged meal with 5 g of protein, 90 g of carbohydrates and 5 g of
    fat: of its 425 kcal, 4.7% come from protein, 84.7% from
    carbohydrates and 10.6% from fat. *)
Definition starchy_logs : list (food_log float) :=
  [ {| log_calories := 425%float;
       log_protein := 5%float;
       log_carbs := 90%float;
       log_fat := 5%float;
       log_fiber := Some 10%float;
       log_sugar := Some 60%float;
       logged_at := {| year := 2024; month := 5; day := 1;
                       hour := 12; minute := 0; second := 0 |} |} ].

(** A user row as it is after registration: no column of the profile is
    set. *)
Definition new_user : Main.User float :=
  {| Main.dietary_preferences := None;
     Main.height := None;
     Main.weight := None;
     Main.age := None;
     Main.gender := None;
     Main.activity_level := None;
     Main.goals := None |}.

(** A user row with every column of the profile set. *)
Definition complete_user : Main.User float :=
  {| Main.dietary_preferences := Some "Vegetarian";
     Main.height := Some 175%float;
     Main.weight := Some 70%float;
     Main.age := Some 30;
     Main.gender := Some "male";
     Main.activity_level := Some "moderately_active";
     Main.goals := Some "muscle_gain" |}.

(** The complete user without dietary preferences. *)
Definition user_without_preferences : Main.User float :=
  {| Main.dietary_preferences := None;
     Main.height := Some 175%float;
     Main.weight := Some 70%float;
     Main.age := Some 30;
     Main.gender := Some "male";
     Main.activity_level := Some "moderately_active";
     Main.goals := Some "muscle_gain" |}.

(** Rows of a food frame of the plan route. *)
Definition sample_rows : list (Routes.food_row float) :=
  [ {| Routes.name := "Chicken Salad"; Routes.calories := 250%float;
       Routes.protein := Some 30%float; Routes.carbs := Some 10%float;
       Routes.fat := Some 9%float |};
    {| Routes.name := "Veggie Omelette"; Routes.calories := 220%float;
       Routes.protein := Some 14%float; Routes.carbs := Some 4%float;
       Routes.fat := Some 16%float |};
    {| Routes.name := "Tofu Wrap"; Routes.calories := 310%float;
       Routes.protein := Some 18%float; Routes.carbs := Some 36%float;
       Routes.fat := Some 10%float |} ].



(** Two rows of the food log table, as the insight route reads them. *)
Definition route_logs : list (Main.FoodLog float) :=
  [ {| Main.calories := 411%float; Main.protein := 17%float;
       Main.carbs := 70%float; Main.fat := 7%float |};
    {| Main.calories := 397%float; Main.protein := 33%float;
       Main.carbs := 28%float; Main.fat := 17%float |} ].

(** A data loader with three foods, of which the last has no nutrition
    data; the nutrition dictionary is a number of kcal. *)
Definition sample_loader : MlModels.data_loader Z :=
  {| MlModels.get_food_items := ["apple_pie"; "bibimbap"; "cannoli"];
     MlModels.get_food_nutrition :=
       fun food_name =>
         if String.eqb food_name "apple_pie" then Some 237
         else if String.eqb food_name "bibimbap" then Some 490
         else None |}.

(** Every character of [s] is an ASCII character. *)
Fixpoint is_ascii (s : string) : bool :=
  match s with
  | EmptyString => true
  | String c s' => (nat_of_ascii c <? 128)%nat && is_ascii s'
  end.

(** ** The nutrition summary of [backend/main.py] *)

Module Summary.

(** A [datetime] without time zone, as its day number ([toordinal()]) and
    the microseconds since midnight; [date()] is the day number.  The
    limits of the years 1 and 9999 are left out. *)
Record timestamp : Type := {
  ordinal : Z;
  microseconds : Z
}.

(** The microseconds of a day. *)
Definition day_us : Z := 86400000000.

(** The microseconds from the start of day 0 to [t]. *)
Definition instant (t : timestamp) : Z := ordinal t * day_us + microseconds t.

(** [(end_date - start_date).days]: a [timedelta] keeps its seconds and
    microseconds non-negative, so that its days are rounded down. *)
Definition days_between (start_date end_date : timestamp) : Z :=
  (instant end_date - instant start_date) / day_us.

(** [t + timedelta(days=i)] *)
Definition add_days (t : timestamp) (i : Z) : timestamp :=
  {| ordinal := ordinal t + i; microseconds := microseconds t |}.

(** [t.replace(hour=23, minute=59, second=59)]: the microsecond stays. *)
Definition end_of_day (t : timestamp) : timestamp :=
  {| ordinal := ordinal t;
     microseconds := 86399 * 1000000 + microseconds t mod 1000000 |}.

(** [ZeroDivisionError] is the one exception of the route. *)
Inductive outcome (A : Type) : Type :=
| Done (a : A)
| ZeroDivisionError.

Arguments Done {A} a.
Arguments ZeroDivisionError {A}.

Section Summary.

Context {F : Type} `{PyFloat F}.

(** The columns of [models.FoodLog] that the route reads. *)
Record FoodLog : Type := {
  logged_at : timestamp;
  calories : F;
  protein : F;
  carbs : F;
  fat : F;
  fiber : option F;
  sugar : option F
}.

(** An entry of [daily_data]; [day_date] stands for the ISO text of the
    date. *)
Record daily : Type := {
  day_date : Z;
  day_calories : F;
  day_protein : F;
  day_carbs : F;
  day_fat : F;
  day_fiber : F;
  day_sugar : F
}.

Record NutritionSummary : Type := {
  start_date : timestamp;
  end_date : timestamp;
  avg_calories : F;
  avg_protein : F;
  avg_carbs : F;
  avg_fat : F;
  avg_fiber : F;
  avg_sugar : F;
  daily_data : list daily
}.

(** [daily_data[k] = v] for a [dict] with dates as keys. *)
Fixpoint set_day (d : list (Z * daily)) (k : Z) (v : daily) : list (Z * daily) :=
  match d with
  | [] => [(k, v)]
  | (k', v') :: d' =>
      if Z.eqb k' k then (k', v) :: d' else (k', v') :: set_day d' k v
  end.

(** [range(n)] for an int *)
Definition range_Z (n : Z) : list Z := map Z.of_nat (seq 0 (Z.to_nat n)).

(** The loop that initialises [daily_data]. *)
Definition initial_days (start_date : timestamp) (days_in_range : Z)
  : list (Z * daily) :=
  fold_left
    (fun daily_data i =>
       let current_date := ordinal (add_days start_date i) in
       set_day daily_data current_date
         {| day_date := current_date;
            day_calories := of_int 0; day_protein := of_int 0;
            day_carbs := of_int 0; day_fat := of_int 0;
            day_fiber := of_int 0; day_sugar := of_int 0 |})
    (range_Z days_in_range) [].

(** The six [+=] on the entry of [log_date], when the date is a key. *)
Fixpoint add_log (d : list (Z * daily)) (log : FoodLog) : list (Z * daily) :=
  match d with
  | [] => []
  | (k, v) :: d' =>
      if Z.eqb k (ordinal (logged_at log))
      then (k, {| day_date := day_date v;
                  day_calories := (day_calories v + calories log)%num;
                  day_protein := (day_protein v + protein log)%num;
                  day_carbs := (day_carbs v + carbs log)%num;
                  day_fat := (day_fat v + fat log)%num;
                  day_fiber := (day_fiber v + or_zero (fiber log))%num;
                  day_sugar := (day_sugar v + or_zero (sugar log))%num |}) :: d'
      else (k, v) :: add_log d' log
  end.

(** [get_nutrition_summary], from the time [now] and the rows [food_logs]
    that the query returned for the user and the two dates. *)
Definition get_nutrition_summary (now : timestamp)
    (start_date end_date : option timestamp) (food_logs : list FoodLog)
  : outcome NutritionSummary :=
  let end_date :=
    match end_date with
    | Some t => t
    | None => end_of_day now
    end in
  let start_date :=
    match start_date with
    | Some t => t
    | None => add_days end_date (-7)
    end in
  let days_in_range := days_between start_date end_date + 1 in
  let daily_data := initial_days start_date days_in_range in
  let daily_data := fold_left add_log food_logs daily_data in
  let values := map snd daily_data in
  let total_calories := py_sum (map day_calories values) in
  let total_protein := py_sum (map day_protein values) in
  let total_carbs := py_sum (map day_carbs values) in
  let total_fat := py_sum (map day_fat values) in
  let total_fiber := py_sum (map day_fiber values) in
  let total_sugar := py_sum (map day_sugar values) in
  if Z.eqb days_in_range 0 then ZeroDivisionError
  else
    Done {| start_date := start_date;
            end_date := end_date;
            avg_calories := py_round_nd (total_calories / of_int days_in_range)%num 1;
            avg_protein := py_round_nd (total_protein / of_int days_in_range)%num 1;
            avg_carbs := py_round_nd (total_carbs / of_int days_in_range)%num 1;
            avg_fat := py_round_nd (total_fat / of_int days_in_range)%num 1;
            avg_fiber := py_round_nd (total_fiber / of_int days_in_range)%num 1;
            avg_sugar := py_round_nd (total_sugar / of_int days_in_range)%num 1;
            daily_data := values |}.

End Summary.

Arguments FoodLog F : clear implicits.
Arguments daily F : clear implicits.
Arguments NutritionSummary F : clear implicits.
Arguments Done {A} a.
Arguments ZeroDivisionError {A}.

End Summary.

(** A log on day 739005 at 08:00 and the two dates of a request from day
    739004 at 18:00 to day 739005 at 09:00. *)
Definition morning_log : Summary.FoodLog float :=
  {| Summary.logged_at :=
       {| Summary.ordinal := 739005; Summary.microseconds := 8 * 3600000000 |};
     Summary.calories := 411%float; Summary.protein := 17%float;
     Summary.carbs := 70%float; Summary.fat := 7%float;
     Summary.fiber := None; Summary.sugar := Some 10%float |}.

Definition evening : Summary.timestamp :=
  {| Summary.ordinal := 739004; Summary.microseconds := 18 * 3600000000 |}.

Definition next_morning : Summary.timestamp :=
  {| Summary.ordinal := 739005; Summary.microseconds := 9 * 3600000000 |}.

Unset Implicit Arguments.

(** * Properties *)

(** ** Loops and random choice *)

Section Loops.

Context {A S : Type}.

(** An invariant of the loop body is an invariant of the loop. *)
Lemma for_each_invariant (I : S -> Prop) (xs : list A) (body : S -> A -> Rand S) :
  (forall acc x n acc' n',
      In x xs -> I acc -> body acc x n = Ok (acc', n') -> I acc') ->
  forall acc n acc' n',
    I acc -> for_each xs body acc n = Ok (acc', n') -> I acc'.
Proof.
  induction xs as [|x xs IH]; intros Hbody acc n acc' n' Hacc Hrun.
  - cbn in Hrun. injection Hrun as <- _. exact Hacc.
  - cbn in Hrun. unfold rbind in Hrun.
    destruct (body acc x n) as [[acc1 n1]|e] eqn:Hstep; [|discriminate].
    apply IH with (acc := acc1) (n := n1) (n' := n'); auto.
    + intros a y m a' m' Hy. apply Hbody. now right.
    + apply Hbody with (acc := acc) (x := x) (n := n) (n' := n1); auto. now left.
Qed.

(** A relation that each step extends along the items holds of the loop. *)
Lemma for_each_fold (R : list A -> S -> S -> Prop) (xs : list A)
    (body : S -> A -> Rand S) :
  (forall acc, R [] acc acc) ->
  (forall x ys acc acc1 acc2 n n1,
      body acc x n = Ok (acc1, n1) -> R ys acc1 acc2 -> R (x :: ys) acc acc2) ->
  forall acc n acc' n',
    for_each xs body acc n = Ok (acc', n') -> R xs acc acc'.
Proof.
  intros Hnil Hcons.
  induction xs as [|x xs IH]; intros acc n acc' n' Hrun.
  - cbn in Hrun. injection Hrun as <- _. apply Hnil.
  - cbn in Hrun. unfold rbind in Hrun.
    destruct (body acc x n) as [[acc1 n1]|e] eqn:Hstep; [|discriminate].
    eapply Hcons; eauto.
Qed.

End Loops.

(** A sampled element is an element of the pool. *)
Lemma sample_In {A : Type} (rng : nat -> nat) (pool : list A) n a n' :
  sample rng pool n = Ok (a, n') -> In a pool.
Proof.
  unfold sample.
  destruct (nth_error pool _) as [x|] eqn:Hnth; [|discriminate].
  intros Heq. injection Heq as <- _. eapply nth_error_In; eauto.
Qed.

(** Sampling from a pool that has an element succeeds. *)
Lemma sample_nonempty {A : Type} (rng : nat -> nat) (pool : list A) n :
  pool <> [] -> exists a, sample rng pool n = Ok (a, Datatypes.S n).
Proof.
  intros Hne. unfold sample.
  destruct (nth_error pool _) as [x|] eqn:Hnth; [eauto|].
  apply nth_error_None in Hnth.
  destruct pool as [|y ys]; [congruence|].
  pose proof (Nat.mod_upper_bound (rng n) (List.length (y :: ys))) as Hlt.
  cbn [List.length] in *. lia.
Qed.

(** ** The days of a plan *)

Lemma dict_set_keys {V : Type} (d : list (string * V)) k v :
  map fst (dict_set d k v) = set_key (map fst d) k.
Proof.
  unfold set_key, mem.
  induction d as [|[k' v'] d IH]; cbn; [reflexivity|].
  rewrite (String.eqb_sym k k').
  destruct (String.eqb k' k); cbn; [reflexivity|].
  rewrite IH. now destruct (existsb (String.eqb k) (map fst d)).
Qed.

Lemma mem_In k keys : mem k keys = true <-> In k keys.
Proof.
  unfold mem. rewrite existsb_exists. split.
  - intros (x & Hin & Heq). apply String.eqb_eq in Heq. now subst.
  - intros Hin. exists k. split; [assumption|apply String.eqb_refl].
Qed.

Lemma set_key_present k keys : In k keys -> set_key keys k = keys.
Proof. intros Hin. unfold set_key. apply mem_In in Hin. now rewrite Hin. Qed.

Lemma day_name_In i : In (nth (Nat.modulo i 7) days_of_week "") days_of_week.
Proof.
  apply nth_In. change (List.length days_of_week) with 7%nat.
  apply Nat.mod_upper_bound. discriminate.
Qed.

Lemma set_days_idle (idx : list nat) :
  fold_left set_key (map (fun i => nth (Nat.modulo i 7) days_of_week "") idx)
    days_of_week = days_of_week.
Proof.
  induction idx as [|i idx IH]; cbn [map fold_left]; [reflexivity|].
  rewrite set_key_present by apply day_name_In. exact IH.
Qed.

(** The keys set by a loop over [range(n)], starting from no key. *)
Lemma set_days_range (n : nat) :
  fold_left set_key (map (fun i => nth (Nat.modulo i 7) days_of_week "") (seq 0 n)) []
  = firstn (Nat.min n 7) days_of_week.
Proof.
  destruct (Nat.le_gt_cases n 7) as [Hle|Hgt].
  - do 8 (destruct n as [|n]; [reflexivity|]). lia.
  - replace n with (7 + (n - 7))%nat by lia.
    rewrite seq_app, map_app, fold_left_app.
    replace (Nat.min (7 + (n - 7)) 7) with 7%nat by lia.
    change (fold_left set_key (map _ (seq 0 7)) []) with days_of_week.
    apply set_days_idle.
Qed.

(** The keys after a loop that sets one key per item. *)
Lemma set_loop_keys {A V : Type} (key : A -> string) (G : Rand V) (xs : list A) :
  forall (acc : list (string * V)) n d n',
    for_each xs (fun d x => rbind G (fun v => ret (dict_set d (key x) v))) acc n
    = Ok (d, n') ->
    map fst d = fold_left set_key (map key xs) (map fst acc).
Proof.
  induction xs as [|x xs IH]; intros acc n d n' Hrun.
  - cbn in Hrun. injection Hrun as <- _. reflexivity.
  - cbn [for_each] in Hrun. unfold rbind at 1 in Hrun.
    destruct (rbind G _ n) as [[acc1 n1]|] eqn:Hstep; [|discriminate].
    apply IH in Hrun. rewrite Hrun. cbn [map fold_left]. f_equal.
    unfold rbind, ret in Hstep.
    destruct (G n) as [[v n2]|]; [|discriminate].
    injection Hstep as <- _. apply dict_set_keys.
Qed.

Section Plan.

Context {F : Type} `{PyFloat F}.

(** The keys of the plan that the body of [generate_meal_plan] builds. *)
Lemma generate_meal_plan_body_keys (self : MealRecommender F) rng
    (p : user_profile F) days n plan n' :
  generate_meal_plan_body self rng p days n = Ok (plan, n') ->
  map fst plan = firstn (Nat.min (Z.to_nat days) 7) days_of_week.
Proof.
  unfold generate_meal_plan_body. unfold rbind at 1 2, lift.
  destruct (_calculate_daily_calories p) as [c|]; [|discriminate].
  destruct (_calculate_macros p c) as [m|]; [|discriminate].
  intros Hrun. rewrite <- set_days_range.
  apply (set_loop_keys (fun i => nth (Nat.modulo i 7) days_of_week "")) in Hrun.
  exact Hrun.
Qed.

(** Every entry of the dictionary after [d[k] = v] was in [d] or is [v]. *)
Lemma dict_set_In {V : Type} (d : list (string * V)) k v x :
  In x (dict_set d k v) -> In x d \/ snd x = v.
Proof.
  induction d as [|[k' v'] d IH]; cbn.
  - intros [<-|[]]. now right.
  - destruct (String.eqb k' k); cbn.
    + intros [<-|Hin]; [now right|left; now right].
    + intros [<-|Hin]; [left; now left|].
      destruct (IH Hin) as [Hd|Hv]; [left; now right|now right].
Qed.

(** Every day of a generated plan was produced by [_generate_day_plan]
    from the calorie and macro targets of the profile. *)
Lemma generate_meal_plan_body_days (self : MealRecommender F) rng
    (p : user_profile F) days n plan n' :
  generate_meal_plan_body self rng p days n = Ok (plan, n') ->
  exists c m,
    _calculate_daily_calories p = Ok c /\
    _calculate_macros p c = Ok m /\
    forall d dp, In (d, dp) plan ->
      exists n1 n2, _generate_day_plan self rng c m p n1 = Ok (dp, n2).
Proof.
  unfold generate_meal_plan_body. unfold rbind at 1 2, lift.
  destruct (_calculate_daily_calories p) as [c|] eqn:Hc; [|discriminate].
  destruct (_calculate_macros p c) as [m|] eqn:Hm; [|discriminate].
  intros Hrun. exists c, m. split; [reflexivity|]. split; [exact Hm|].
  refine (@for_each_invariant _ _
            (fun plan : week_plan F => forall d dp, In (d, dp) plan ->
               exists n1 n2, _generate_day_plan self rng c m p n1 = Ok (dp, n2))
            _ _ _ _ _ _ _ _ Hrun); [|intros d dp []].
  intros acc i k acc' k' _ Hacc Hstep d dp Hin.
  unfold rbind, ret in Hstep.
  destruct (_generate_day_plan self rng c m p k) as [[v k2]|] eqn:Hday;
    [|discriminate].
  injection Hstep as <- _.
  apply dict_set_In in Hin. destruct Hin as [Hin|Hv]; [eauto|].
  cbn in Hv. subst v. eauto.
Qed.

(** The pool that a meal is drawn from is part of the filtered frame. *)
Lemma suitable_foods_incl (filtered_foods : list (food F)) meal_type f :
  In f match _filter_by_meal_type filtered_foods meal_type with
       | [] => filtered_foods
       | _ => _filter_by_meal_type filtered_foods meal_type
       end ->
  In f filtered_foods.
Proof.
  assert (Hsub : In f (_filter_by_meal_type filtered_foods meal_type) ->
                 In f filtered_foods);
    [|destruct (_filter_by_meal_type filtered_foods meal_type); auto].
  unfold _filter_by_meal_type.
  repeat match goal with
         | |- context [if ?b then _ else _] => destruct b
         end; try (intros Hin; apply filter_In in Hin; tauto); trivial.
Qed.

(** One turn of the meal loop appends one meal: a food of the filtered
    frame, scaled to the target of the meal type. *)
Lemma add_meal_appends rng total (filtered_foods : list (food F)) acc item n acc' n' :
  add_meal rng total filtered_foods acc item n = Ok (acc', n') ->
  exists m f,
    meals acc' = (meals acc ++ [m])%list /\
    In f filtered_foods /\ m_name m = food_label f /\
    scaled_to_share total item m.
Proof.
  unfold add_meal. destruct item as [meal_type percentage].
  unfold rbind at 1, lift.
  destruct (meal_calories_of total percentage) as [target|] eqn:Htarget;
    [|discriminate].
  unfold rbind at 1.
  destruct (sample rng _ n) as [[f k]|] eqn:Hsample; [|discriminate].
  unfold rbind at 1.
  destruct (py_int _) as [cal|] eqn:Hcal; [|discriminate].
  unfold ret. intros Heq. injection Heq as <- _. cbn [meals].
  eexists. exists f. split; [reflexivity|].
  apply sample_In in Hsample. apply suitable_foods_incl in Hsample.
  split; [assumption|]. split; [reflexivity|].
  split; [reflexivity|]. exists target, f. cbn. auto.
Qed.

(** The meals of a day, one per entry of the share table and in its order. *)
Lemma day_plan_meals (self : MealRecommender F) rng total macros
    (p : user_profile F) n dp n' :
  _generate_day_plan self rng total macros p n = Ok (dp, n') ->
  exists foods filtered_foods,
    food_database self = Some foods /\
    filter_preferences foods p = Ok filtered_foods /\
    Forall2 (fun item m =>
               scaled_to_share total item m /\
               exists f, In f filtered_foods /\ m_name m = food_label f)
            meal_distribution (meals dp).
Proof.
  unfold _generate_day_plan.
  destruct (food_database self) as [foods|]; [|discriminate].
  unfold rbind at 1, lift.
  destruct (filter_preferences foods p) as [ff|] eqn:Hff; [|discriminate].
  unfold rbind at 1.
  destruct (for_each _ _ _ n) as [[acc k]|] eqn:Hloop; [|discriminate].
  unfold ret. intros Heq. injection Heq as <- _. cbn [meals].
  exists foods, ff. split; [reflexivity|]. split; [exact Hff|].
  apply (@for_each_fold _ _
           (fun items (a a' : day_plan F) =>
              exists ms, meals a' = (meals a ++ ms)%list /\
                Forall2 (fun item m =>
                           scaled_to_share total item m /\
                           exists f, In f ff /\ m_name m = food_label f)
                        items ms)) in Hloop.
  - destruct Hloop as (ms & Hms & Hall). cbn in Hms. now rewrite Hms.
  - intros a. exists []. split; [now rewrite app_nil_r|constructor].
  - intros x ys a a1 a2 k1 k2 Hstep (ms & Hms & Hall).
    apply add_meal_appends in Hstep.
    destruct Hstep as (m & f & Hm & Hin & Hname & Hshare).
    exists (m :: ms). split.
    + rewrite Hms, Hm, <- app_assoc. reflexivity.
    + constructor; eauto.
Qed.

End Plan.

(** ** Claims about generated plans *)




(** The keys of a returned plan. *)
Lemma generate_meal_plan_keys (F : Type) (H : PyFloat F)
    (self : MealRecommender F) rng (p : user_profile F) days plan :
  generate_meal_plan self rng p days = Some plan ->
  map fst plan = firstn (Nat.min (Z.to_nat days) 7) days_of_week.
Proof.
  unfold generate_meal_plan.
  destruct (food_database self) as [foods|]; [|discriminate].
  destruct (generate_meal_plan_body self rng p days 0%nat) as [[plan0 k]|] eqn:Hbody;
    [|discriminate].
  intros Heq. injection Heq as <-.
  exact (generate_meal_plan_body_keys _ _ _ _ _ _ _ Hbody).
Qed.

(** A horizon of 7 days is keyed monday to sunday, one of 3 days monday to
    wednesday. *)
Corollary generate_meal_plan_week (F : Type) (H : PyFloat F)
    (self : MealRecommender F) rng (p : user_profile F) plan :
  generate_meal_plan self rng p 7 = Some plan ->
  map fst plan = ["monday"; "tuesday"; "wednesday"; "thursday"; "friday";
                  "saturday"; "sunday"].
Proof. apply generate_meal_plan_keys. Qed.

Corollary generate_meal_plan_three_days (F : Type) (H : PyFloat F)
    (self : MealRecommender F) rng (p : user_profile F) plan :
  generate_meal_plan self rng p 3 = Some plan ->
  map fst plan = ["monday"; "tuesday"; "wednesday"].
Proof. apply generate_meal_plan_keys. Qed.

(** No plan is returned when the frame is not loaded, when it has no row
    left for a meal, or when a key of the profile holds [None]. *)
Lemma generate_meal_plan_failures :
  generate_meal_plan {| food_database := None |} draws example_profile 3 = None /\
  generate_meal_plan {| food_database := Some [] |} draws example_profile 3 = None /\
  generate_meal_plan sample_recommender draws
    {| dietary_preferences := PyNone;
       height := Val 175%float; weight := Val 70%float; age := Val 30;
       gender := Val "male"; activity_level := Val "moderately_active";
       goals := Val "" |} 3 = None.
Proof. repeat split; vm_compute; reflexivity. Qed.

(** The frame of a vegetarian has no row whose label holds a meat keyword. *)
Lemma filter_preferences_vegetarian (F : Type) (foods : list (food F))
    (p : user_profile F) prefs filtered_foods :
  dietary_preferences p = Val prefs ->
  str_in "vegetarian" (lower prefs) = true ->
  filter_preferences foods p = Ok filtered_foods ->
  forall f, In f filtered_foods -> label_contains meat_keywords f = false.
Proof.
  intros Hprefs Hveg. unfold filter_preferences. rewrite Hprefs. cbn [entry_lower bind].
  rewrite Hveg. intros Heq f Hin. injection Heq as <-.
  apply filter_In in Hin. destruct Hin as [_ Hno].
  now apply negb_true_iff in Hno.
Qed.

(** C7.  For a profile whose dietary preference contains "vegetarian" in
    any letter case, for every food frame and every stream of random
    draws, no meal of any day of a generated plan has a name that contains
    one of the meat keywords beef, chicken, pork, turkey, meat, fish and
    salmon, letter case aside; the fallback to the whole filtered frame,
    taken when no row suits the meal type, is covered. *)
Theorem vegetarian_plan_has_no_meat :
  forall (F : Type) (H : PyFloat F) (self : MealRecommender F)
         (rng : nat -> nat) (p : user_profile F) (days : Z)
         (plan : week_plan F) (prefs : string),
    dietary_preferences p = Val prefs ->
    str_in "vegetarian" (lower prefs) = true ->
    generate_meal_plan self rng p days = Some plan ->
    forall d dp m keyword,
      In (d, dp) plan -> In m (meals dp) -> In keyword meat_keywords ->
      str_in keyword (lower (m_name m)) = false.
Proof.
  intros F H self rng p days plan prefs Hprefs Hveg Hgen d dp m keyword Hd Hm Hk.
  unfold generate_meal_plan in Hgen.
  destruct (food_database self) as [foods|] eqn:Hdb; [|discriminate].
  destruct (generate_meal_plan_body self rng p days 0%nat) as [[plan0 k]|] eqn:Hbody;
    [|discriminate].
  injection Hgen as ->.
  destruct (generate_meal_plan_body_days _ _ _ _ _ _ _ Hbody) as (c & ms & _ & _ & Hday).
  destruct (Hday d dp Hd) as (n1 & n2 & Hdp).
  destruct (day_plan_meals _ _ _ _ _ _ _ _ Hdp) as (fs & ff & _ & Hff & Hall).
  assert (Hname : exists f, In f ff /\ m_name m = food_label f).
  { clear - Hall Hm. induction Hall as [|item m' items ms' [_ Hf] _ IH];
      [destruct Hm|].
    destruct Hm as [<-|Hm]; auto. }
  destruct Hname as (f & Hf & ->).
  pose proof (filter_preferences_vegetarian _ _ _ _ _ Hprefs Hveg Hff f Hf) as Hno.
  unfold label_contains, contains_any in Hno.
  destruct (str_in keyword (lower (food_label f))) eqn:Hin; [|reflexivity].
  rewrite <- Hno. symmetry. apply existsb_exists. eauto.
Qed.

Lemma vegetarian_plan_has_no_meat_witness :
  dietary_preferences vegetarian_profile = Val "Vegetarian" /\
  str_in "vegetarian" (lower "Vegetarian") = true /\
  exists plan,
    generate_meal_plan sample_recommender draws vegetarian_profile 7 = Some plan /\
    forall d dp m keyword,
      In (d, dp) plan -> In m (meals dp) -> In keyword meat_keywords ->
      str_in keyword (lower (m_name m)) = false.
Proof.
  split; [reflexivity|]. split; [reflexivity|].
  eexists. split; [vm_compute; reflexivity|].
  apply (@vegetarian_plan_has_no_meat float binary64 sample_recommender draws
           vegetarian_profile 7 _ "Vegetarian");
    [reflexivity|reflexivity|vm_compute; reflexivity].
Defined.

(** ** The share of each meal *)

(** C5, as amended.  Every day assembled by [_generate_day_plan] holds one
    meal per entry of the table breakfast 0.25, lunch 0.35, dinner 0.30,
    snack 0.10, in this order, each scaled to the target
    [int(total_calories * share)]; the table breakfast 0.25, lunch 0.30,
    dinner 0.30, snack 0.15 is the one of the route [/meal-plan/generate]
    of [main.py]; as decimals, each of the two tables sums to 1. *)
Theorem day_plan_meal_shares :
  forall (F : Type) (H : PyFloat F) (self : MealRecommender F)
         (rng : nat -> nat) (total_calories : Z) (macros : macro_targets F)
         (p : user_profile F) (n : nat) (dp : day_plan F) (n' : nat),
    _generate_day_plan self rng total_calories macros p n = Ok (dp, n') ->
    Forall2 (scaled_to_share total_calories)
      [ ("breakfast", dec 25 2); ("lunch", dec 35 2);
        ("dinner", dec 30 2); ("snack", dec 10 2) ]
      (meals dp) /\
    (forall daily_calories : Z,
        map (Main.meal_calories daily_calories) Main.meal_types
        = map (meal_calories_of daily_calories)
            [dec 25 2; dec 3 1; dec 3 1; dec 15 2]) /\
    Qeq (py_sum (map snd (@meal_distribution Q exact))) 1 /\
    Qeq (py_sum [dec 25 2; dec 3 1; dec 3 1; dec 15 2]) 1.
Proof.
  intros F H self rng total macros p n dp n' Hday.
  destruct (day_plan_meals _ _ _ _ _ _ _ _ Hday) as (fs & ff & _ & _ & Hall).
  split; [|split; [intros; reflexivity|split; reflexivity]].
  change (Forall2 (scaled_to_share total) meal_distribution (meals dp)).
  clear - Hall. induction Hall as [|item m items ms [Hs _] _ IH]; constructor; auto.
Qed.

Lemma day_plan_meal_shares_witness :
  exists dp n',
    _generate_day_plan sample_recommender draws 2555
      {| protein_g := 160; carbs_g := 319; fat_g := 71;
         protein_pct := 25%float; carbs_pct := 50%float; fat_pct := 25%float |}
      example_profile 0%nat = Ok (dp, n') /\
    Forall2 (scaled_to_share 2555)
      [ ("breakfast", dec 25 2); ("lunch", dec 35 2);
        ("dinner", dec 30 2); ("snack", dec 10 2) ]
      (meals dp).
Proof.
  eexists. eexists. split; [vm_compute; reflexivity|].
  refine (proj1 (@day_plan_meal_shares float binary64 sample_recommender draws
                   2555
                   {| protein_g := 160; carbs_g := 319; fat_g := 71;
                      protein_pct := 25%float; carbs_pct := 50%float;
                      fat_pct := 25%float |}
                   example_profile 0%nat _ 4%nat _)).
  vm_compute; reflexivity.
Defined.

(** C5 as stated fails: on a day of 2000 kcal the targets of
    [_generate_day_plan] are 500, 700, 600 and 200 kcal, where the shares
    0.25, 0.30, 0.30 and 0.15 give 500, 600, 600 and 300 kcal; and the
    lunch of the sample plan, on a day of 2555 kcal, is scaled to 894 kcal,
    35% of the day, not to the 766 kcal of a 30% share. *)
Lemma day_plan_shares_differ :
  map (fun item => meal_calories_of 2000 (snd item)) (@meal_distribution float binary64)
  = [Ok 500; Ok 700; Ok 600; Ok 200] /\
  map (meal_calories_of 2000) ([dec 25 2; dec 30 2; dec 30 2; dec 15 2] : list float)
  = [Ok 500; Ok 600; Ok 600; Ok 300] /\
  (exists plan dp lunch,
      generate_meal_plan sample_recommender draws example_profile 1 = Some plan /\
      In ("monday", dp) plan /\
      nth_error (meals dp) 1 = Some lunch /\
      m_type lunch = "lunch" /\
      m_calories lunch = 894 /\
      meal_calories_of 2555 (dec 30 2 : float) = Ok 766).
Proof.
  split; [vm_compute; reflexivity|]. split; [vm_compute; reflexivity|].
  eexists. eexists. eexists.
  split; [vm_compute; reflexivity|].
  split; [left; reflexivity|].
  split; [reflexivity|].
  split; [reflexivity|]. split; [reflexivity|vm_compute; reflexivity].
Qed.

(** ** Calorie and macro targets *)

(** The double precision instance at some literals of the code: [1.55] is
    the double nearest to 155/100; [int] truncates towards zero; [round]
    goes to the even neighbour at a tie. *)
Lemma binary64_examples :
  (dec 155 2 : float) = 0x1.8cccccccccccdp+0%float /\
  (dec 625 2 : float) = 6.25%float /\
  (of_int 1800 : float) = 1800%float /\
  py_int 2555.5625%float = Ok 2555 /\
  py_int (-2.5)%float = Ok (-2) /\
  py_round 332.5%float = Ok 332 /\
  py_round 333.5%float = Ok 334 /\
  py_round 166.25%float = Ok 166 /\
  py_round_nd 0.125%float 2 = (dec 12 2 : float) /\
  np_round 0.375%float 2 = (dec 38 2 : float).
Proof. repeat split; vm_compute; reflexivity. Qed.

(** C6, as amended.  For the profile weight 70, height 175, age 30, gender
    male, activity level moderately_active and empty goals, the base is
    [10*70 + 6.25*175 - 5*30 + 5 = 1648.75] and [_calculate_daily_calories]
    returns 2555, the truncation of [1648.75 * 1.55 = 2555.5625]; the
    default split on 2660 kcal yields 166 g of protein, 332 g of
    carbohydrates, since [round(332.5)] goes to the even neighbour, and
    74 g of fat; on the 2555 kcal of the profile it yields 160, 319 and
    71 g. *)
Theorem example_profile_targets :
  mifflin_st_jeor "male" 70%float 175%float 30 = 1648.75%float /\
  Qeq (mifflin_st_jeor "male" (inject_Z 70) (inject_Z 175) 30 * dec 155 2)%num
      (dec 25555625 4) /\
  _calculate_daily_calories example_profile = Ok 2555 /\
  _calculate_macros example_profile 2660
  = Ok {| protein_g := 166; carbs_g := 332; fat_g := 74;
          protein_pct := 25%float; carbs_pct := 50%float; fat_pct := 25%float |} /\
  _calculate_macros example_profile 2555
  = Ok {| protein_g := 160; carbs_g := 319; fat_g := 71;
          protein_pct := 25%float; carbs_pct := 50%float; fat_pct := 25%float |}.
Proof. repeat split; vm_compute; reflexivity. Qed.

(** C6 as stated fails: the calorie target of the profile is not 2660, and
    the carbohydrate target on 2660 kcal is not 333 g. *)
Lemma example_profile_not_2660 :
  _calculate_daily_calories example_profile <> Ok 2660 /\
  forall m, _calculate_macros example_profile 2660 = Ok m -> carbs_g m <> 333.
Proof.
  split.
  - vm_compute. discriminate.
  - intros m Hm.
    assert (Hc : _calculate_macros example_profile 2660
                 = Ok {| protein_g := 166; carbs_g := 332; fat_g := 74;
                         protein_pct := 25%float; carbs_pct := 50%float;
                         fat_pct := 25%float |}) by (vm_compute; reflexivity).
    rewrite Hc in Hm. injection Hm as <-. cbn. discriminate.
Qed.

(** Without one of the five keys, the default is returned as it is. *)
Lemma daily_calories_default (F : Type) (H : PyFloat F) (p : user_profile F) :
  has_key (weight p) && has_key (height p) && has_key (age p)
  && has_key (gender p) && has_key (activity_level p) = false ->
  _calculate_daily_calories p = Ok 1800.
Proof. intros Hkeys. unfold _calculate_daily_calories. now rewrite Hkeys. Qed.

(** C4 at its failing inputs.  A profile with weight, height, age and
    gender but without the key [activity_level] gets 1800 kcal, not the
    2555 kcal of its Mifflin-St Jeor base times 1.55, which it gets once the
    key is there, with [None] or with an unknown level as well, and which
    the route of [main.py] computes for the same person; a profile without
    gender gets 1800 kcal whatever its activity level, where the route
    applies the factor 1.2 to its default base; and a profile whose key
    [weight] holds [None], as the callers in [main.py] build it for a user
    without weight, gets no default at all: the conversion raises. *)
Theorem daily_calories_without_activity_level :
  _calculate_daily_calories profile_without_activity = Ok 1800 /\
  _calculate_daily_calories
    (set_activity_level profile_without_activity "moderately_active") = Ok 2555 /\
  _calculate_daily_calories
    (set_activity_level profile_without_activity "unknown") = Ok 2555 /\
  _calculate_daily_calories
    {| dietary_preferences := Missing; height := Val 175%float;
       weight := Val 70%float; age := Val 30; gender := Val "male";
       activity_level := PyNone; goals := Missing |} = Ok 2555 /\
  Main.daily_calories user_without_activity = Ok 2555 /\
  _calculate_daily_calories profile_without_gender = Ok 1800 /\
  py_int (of_int 1800 * dec 12 1 : float)%num = Ok 2160 /\
  Main.daily_calories user_without_gender = Ok 2400 /\
  _calculate_daily_calories
    {| dietary_preferences := PyNone; height := Val 175%float;
       weight := PyNone; age := Val 30; gender := Val "male";
       activity_level := Val "sedentary"; goals := PyNone |} = Raise TypeError.
Proof. repeat split; vm_compute; reflexivity. Qed.

(** The split is one of the four tables. *)
Lemma macros_of_goals_cases (F : Type) (H : PyFloat F) (p : user_profile F) s :
  macros_of_goals p = Ok s ->
  s = {| macros_protein := dec 25 2; macros_carbs := dec 5 1; macros_fat := dec 25 2 |} \/
  s = {| macros_protein := dec 30 2; macros_carbs := dec 40 2; macros_fat := dec 30 2 |} \/
  s = {| macros_protein := dec 25 2; macros_carbs := dec 55 2; macros_fat := dec 20 2 |} \/
  s = {| macros_protein := dec 35 2; macros_carbs := dec 45 2; macros_fat := dec 20 2 |}.
Proof.
  unfold macros_of_goals.
  destruct (has_key (goals p)); [|intros Heq; injection Heq as <-; auto].
  destruct (entry_lower (goals p)) as [g|]; [cbn [bind]|discriminate].
  destruct (str_in "weight_loss" g); [intros Heq; injection Heq as <-; auto|].
  destruct (str_in "weight_gain" g); [intros Heq; injection Heq as <-; auto|].
  destruct (str_in "muscle_gain" g); intros Heq; injection Heq as <-; auto.
Qed.

(** The split is chosen whenever the goal is missing or a text. *)
Lemma macros_of_goals_defined (F : Type) (H : PyFloat F) (p : user_profile F) :
  goals p <> PyNone -> exists s, macros_of_goals p = Ok s.
Proof.
  intros Hgoals. unfold macros_of_goals.
  destruct (goals p) as [| |g]; cbn; [eauto|congruence|].
  repeat match goal with
         | |- context [if ?b then _ else _] => destruct b
         end; eauto.
Qed.

(** The percentages are the split times 100. *)
Lemma calculate_macros_percentages (F : Type) (H : PyFloat F)
    (p : user_profile F) c m :
  _calculate_macros p c = Ok m ->
  exists s,
    macros_of_goals p = Ok s /\
    protein_pct m = (macros_protein s * of_int 100)%num /\
    carbs_pct m = (macros_carbs s * of_int 100)%num /\
    fat_pct m = (macros_fat s * of_int 100)%num.
Proof.
  unfold _calculate_macros.
  destruct (macros_of_goals p) as [s|]; [cbn [bind]|discriminate].
  destruct (py_round _) as [pg|]; [cbn [bind]|discriminate].
  destruct (py_round _) as [cg|]; [cbn [bind]|discriminate].
  destruct (py_round _) as [fg|]; [cbn [bind]|discriminate].
  intros Heq. injection Heq as <-. exists s. cbn. auto.
Qed.

(** C3.  For every profile, whatever its goal text, and every calorie
    total, the three percentages that [_calculate_macros] returns sum to
    exactly 100.0 in double precision: they are the chosen split times 100,
    not shares derived from the rounded grams. *)
Theorem calculate_macros_percentages_sum :
  forall (p : user_profile float) (daily_calories : Z) (m : macro_targets float),
    _calculate_macros p daily_calories = Ok m ->
    (protein_pct m + carbs_pct m + fat_pct m =? of_int 100)%num = true.
Proof.
  intros p c m Hm.
  destruct (@calculate_macros_percentages _ _ _ _ _ Hm) as (s & Hs & Hp & Hc & Hf).
  rewrite Hp, Hc, Hf.
  destruct (@macros_of_goals_cases _ _ _ _ Hs) as [Hs'|[Hs'|[Hs'|Hs']]];
    rewrite Hs'; vm_compute; reflexivity.
Qed.

Lemma calculate_macros_percentages_sum_witness :
  exists m,
    _calculate_macros weight_loss_profile 2171 = Ok m /\
    (protein_pct m + carbs_pct m + fat_pct m =? of_int 100)%num = true.
Proof.
  eexists. split; [vm_compute; reflexivity|].
  apply (calculate_macros_percentages_sum weight_loss_profile 2171).
  vm_compute; reflexivity.
Defined.

(** The percentage of carbohydrates for a weight gain is not 55 in double
    precision, and the sum is 100.0 all the same. *)
Lemma weight_gain_percentages :
  ((dec 55 2 : float) * of_int 100 =? of_int 55)%num = false /\
  ((dec 25 2 : float) * of_int 100 + dec 55 2 * of_int 100 + dec 20 2 * of_int 100
   =? of_int 100)%num = true.
Proof. split; vm_compute; reflexivity. Qed.



(** ** When a plan is returned *)

Section Returns.

Context {F : Type} `{PyFloat F}.

(** An arithmetic in which [int] and [round] never raise, as [exact]. *)
Hypothesis int_defined : forall x : F, exists z, py_int x = Ok z.
Hypothesis round_defined : forall x : F, exists z, py_round x = Ok z.

Lemma daily_calories_defined (p : user_profile F) :
  weight p <> PyNone -> height p <> PyNone -> age p <> PyNone ->
  gender p <> PyNone -> goals p <> PyNone ->
  exists c, _calculate_daily_calories p = Ok c.
Proof.
  intros Hw Hh Ha Hg Hgoals. unfold _calculate_daily_calories.
  destruct (weight p) as [| |w]; [cbn; eauto|congruence|].
  destruct (height p) as [| |h]; [cbn; eauto|congruence|].
  destruct (age p) as [| |a]; [cbn; eauto|congruence|].
  destruct (gender p) as [| |g]; [cbn; eauto|congruence|].
  destruct (activity_level p) as [| |l]; [cbn; eauto| |];
    cbn [has_key andb entry_float entry_int entry_lower bind];
    (destruct (goals p) as [| |goal]; [|congruence|];
     cbn [has_key entry_lower bind];
     repeat match goal with
            | |- context [if ?b then _ else _] => destruct b
            end; cbn [bind]; apply int_defined).
Qed.

Lemma calculate_macros_defined (p : user_profile F) (c : Z) :
  goals p <> PyNone -> exists m, _calculate_macros p c = Ok m.
Proof.
  intros Hgoals. unfold _calculate_macros.
  destruct (macros_of_goals_defined F H p Hgoals) as [s ->]. cbn [bind].
  destruct (round_defined (of_int c * macros_protein s / of_int 4)%num) as [pg ->].
  destruct (round_defined (of_int c * macros_carbs s / of_int 4)%num) as [cg ->].
  destruct (round_defined (of_int c * macros_fat s / of_int 9)%num) as [fg ->].
  cbn [bind]. eauto.
Qed.

Lemma for_each_defined {A S : Type} (xs : list A) (body : S -> A -> Rand S) :
  (forall acc x n, exists acc' n', body acc x n = Ok (acc', n')) ->
  forall acc n, exists acc' n', for_each xs body acc n = Ok (acc', n').
Proof.
  intros Hbody. induction xs as [|x xs IH]; intros acc n; cbn.
  - unfold ret. eauto.
  - unfold rbind. destruct (Hbody acc x n) as (acc1 & n1 & ->). apply IH.
Qed.

Lemma add_meal_defined rng total (filtered_foods : list (food F)) acc item n :
  filtered_foods <> [] ->
  exists acc' n', add_meal rng total filtered_foods acc item n = Ok (acc', n').
Proof.
  intros Hne. unfold add_meal. destruct item as [meal_type percentage].
  unfold rbind at 1, lift, meal_calories_of.
  destruct (int_defined (of_int total * percentage)%num) as [target ->].
  unfold rbind at 1.
  set (pool := match _filter_by_meal_type filtered_foods meal_type with
               | [] => filtered_foods
               | _ => _filter_by_meal_type filtered_foods meal_type
               end).
  assert (Hpool : pool <> []).
  { unfold pool. destruct (_filter_by_meal_type filtered_foods meal_type);
      [assumption|discriminate]. }
  destruct (sample_nonempty rng pool n Hpool) as [f ->].
  unfold rbind at 1.
  destruct (int_defined
              (food_calories f
               * (of_int target / py_max (food_calories f) (of_int 1)))%num)
    as [cal ->].
  unfold ret. eauto.
Qed.

Lemma generate_day_plan_defined (self : MealRecommender F) rng total macros
    (p : user_profile F) foods filtered_foods n :
  food_database self = Some foods ->
  filter_preferences foods p = Ok filtered_foods ->
  filtered_foods <> [] ->
  exists dp n', _generate_day_plan self rng total macros p n = Ok (dp, n').
Proof.
  intros Hdb Hff Hne. unfold _generate_day_plan. rewrite Hdb.
  unfold rbind at 1, lift. rewrite Hff. unfold rbind at 1.
  destruct (for_each_defined meal_distribution
              (add_meal rng total filtered_foods)
              (fun acc x k => add_meal_defined rng total filtered_foods acc x k Hne)
              {| meals := []; totalCalories := 0; totalProtein := of_int 0;
                 totalCarbs := of_int 0; totalFat := of_int 0 |} n)
    as (acc & k & ->).
  unfold ret. eauto.
Qed.

(** A plan is returned when the frame is loaded, no key of the profile
    holds [None], and the frame has a row that the preference leaves in. *)
Lemma generate_meal_plan_returns (self : MealRecommender F) rng
    (p : user_profile F) days foods filtered_foods :
  food_database self = Some foods ->
  weight p <> PyNone -> height p <> PyNone -> age p <> PyNone ->
  gender p <> PyNone -> goals p <> PyNone ->
  filter_preferences foods p = Ok filtered_foods ->
  filtered_foods <> [] ->
  exists plan, generate_meal_plan self rng p days = Some plan.
Proof.
  intros Hdb Hw Hh Ha Hg Hgoals Hff Hne.
  unfold generate_meal_plan. rewrite Hdb.
  unfold generate_meal_plan_body. unfold rbind at 1 2, lift.
  destruct (daily_calories_defined p Hw Hh Ha Hg Hgoals) as [c ->].
  destruct (calculate_macros_defined p c Hgoals) as [m ->].
  assert (Hbody : forall (acc : list (string * day_plan F)) (i k : nat),
             exists acc' k',
               rbind (_generate_day_plan self rng c m p)
                     (fun plan =>
                        ret (dict_set acc (nth (Nat.modulo i 7) days_of_week "")
                               plan)) k
               = Ok (acc', k')).
  { intros acc i k. unfold rbind, ret.
    destruct (generate_day_plan_defined self rng c m p foods filtered_foods k
                Hdb Hff Hne) as (dp & k' & ->).
    eauto. }
  destruct (for_each_defined (range days)
              (fun (meal_plan : list (string * day_plan F)) i =>
                 rbind (_generate_day_plan self rng c m p)
                       (fun plan =>
                          ret (dict_set meal_plan
                                 (nth (Nat.modulo i 7) days_of_week "") plan)))
              Hbody [] 0%nat) as (plan & k & ->).
  eauto.
Qed.

End Returns.

(** In exact arithmetic a plan is returned under these conditions alone. *)
Corollary generate_meal_plan_returns_exact (self : MealRecommender Q) rng
    (p : user_profile Q) days foods filtered_foods :
  food_database self = Some foods ->
  weight p <> PyNone -> height p <> PyNone -> age p <> PyNone ->
  gender p <> PyNone -> goals p <> PyNone ->
  filter_preferences foods p = Ok filtered_foods ->
  filtered_foods <> [] ->
  exists plan, generate_meal_plan self rng p days = Some plan.
Proof.
  apply generate_meal_plan_returns; intros x; cbn; eauto.
Qed.

(** ** Exact arithmetic *)














(** ** Insights *)

(** C2, as amended.  [MealRecommender.get_nutrition_insights] applied to
    an empty log sequence returns a minimal report that holds a message
    asking to log more meals and an empty list of insights, and neither
    percentages nor averages nor food recommendations.  The two insights
    of the categories general and hydration, both of priority medium, and
    the zero percentages are what the route [/analytics/nutrition-insights]
    of [main.py] returns for no logs; it returns no averages, and its food
    recommendations are its protein and fat suggestions, not its default
    list. *)
Theorem insights_of_no_logs :
  (forall (F : Type) (H : PyFloat F) (p : user_profile F),
      get_nutrition_insights [] p
      = Ok (NotEnoughData
              "Not enough data for insights. Log more meals for personalized nutrition insights."
              [])) /\
  (let r := Main.get_nutrition_insights (F := float) [] in
   map (fun i => (Main.category i, Main.priority i)) (Main.insights r)
   = [("general", "medium"); ("hydration", "medium")] /\
   Main.protein_percentage r = 0%float /\
   Main.carbs_percentage r = 0%float /\
   Main.fat_percentage r = 0%float /\
   Main.food_recommendations r
   = [ "Greek yogurt (high protein, low fat dairy)";
       "Chicken breast (lean protein source)";
       "Lentils (plant-based protein and fiber)";
       "Avocados (healthy monounsaturated fats)";
       "Nuts and seeds (healthy fats and protein)";
       "Olive oil (healthy cooking oil rich in antioxidants)" ]).
Proof.
  split; [reflexivity|]. cbv zeta. repeat split; vm_compute; reflexivity.
Qed.

(** C2 as stated fails: the report for no logs holds no insight. *)
Lemma no_logs_no_insights :
  exists r,
    get_nutrition_insights [] empty_profile = Ok r /\
    insights_of r = [] /\
    List.length (insights_of r) <> 2%nat.
Proof.
  eexists. split; [reflexivity|]. split; [reflexivity|discriminate].
Qed.

(** C10 at its failing input.  For logs with 68.1% of the calories from
    carbohydrates the only insight is the one of the rule for too many
    carbohydrates, and the food recommendations are the list for
    increasing carbohydrates, the same list as for logs with 28.2% of the
    calories from carbohydrates; no entry of the list for reducing
    carbohydrates is recommended. *)
Theorem high_carbs_recommendations :
  (exists ratios averages,
      get_nutrition_insights high_carb_logs empty_profile
      = Ok (Report ratios averages [carbs_high_insight] increase_carbs_foods)) /\
  (exists ratios averages,
      get_nutrition_insights low_carb_logs empty_profile
      = Ok (Report ratios averages [carbs_low_insight] increase_carbs_foods)) /\
  (forall x, In x reduce_carbs_foods -> ~ In x increase_carbs_foods) /\
  str_in "carbs" (message carbs_high_insight) = false.
Proof.
  split; [eexists; eexists; vm_compute; reflexivity|].
  split; [eexists; eexists; vm_compute; reflexivity|].
  split; [|reflexivity].
  intros x Hx Hin. cbn in Hx, Hin.
  repeat (destruct Hx as [<-|Hx]; [intuition discriminate|]). exact Hx.
Qed.

(** *** The test for too many carbohydrates never holds *)

Lemma has_char_app c s t : has_char c (s ++ t) = has_char c s || has_char c t.
Proof.
  induction s as [|a s IH]; cbn; [reflexivity|].
  now rewrite IH, orb_assoc.
Qed.

Lemma prefix_has_char c needle hay :
  prefix needle hay = true -> has_char c needle = true -> has_char c hay = true.
Proof.
  revert hay. induction needle as [|a needle IH]; intros hay Hp Hc; [discriminate|].
  destruct hay as [|b hay]; [discriminate|]. cbn in Hp, Hc |- *.
  destruct (ascii_dec a b) as [<-|Hne]; [|discriminate].
  apply orb_true_iff in Hc. destruct Hc as [Hc|Hc]; [now rewrite Hc|].
  rewrite (IH hay Hp Hc). apply orb_true_r.
Qed.

(** Every character of a text that occurs in [hay] occurs in [hay]. *)
Lemma str_in_has_char c needle hay :
  str_in needle hay = true -> has_char c needle = true -> has_char c hay = true.
Proof.
  induction hay as [|b hay IH]; cbn; intros Hin Hc.
  - apply orb_true_iff in Hin. destruct Hin as [Hp|]; [|discriminate].
    now apply (prefix_has_char c needle "").
  - apply orb_true_iff in Hin. destruct Hin as [Hp|Hin].
    + now apply (prefix_has_char c needle (String b hay)).
    + rewrite (IH Hin Hc). apply orb_true_r.
Qed.

(** The decimal numeral of an integer has no letter b. *)
Lemma str_of_int_no_b n : has_char "b" (str_of_int n) = false.
Proof.
  assert (Hu : forall d, has_char "b" (NilEmpty.string_of_uint d) = false).
  { induction d; cbn; auto. }
  unfold str_of_int, NilZero.string_of_int.
  destruct (Z.to_int n) as [d|d]; cbn; destruct d; cbn; auto.
Qed.

Section Insights.

Context {F : Type} `{PyFloat F}.

(** The insight for the calories does not mention carbs. *)
Lemma calorie_insights_no_carbs (avg : F) (p : user_profile F) l :
  calorie_insights avg p = Ok l -> any_message_high "carbs" l = false.
Proof.
  assert (Hb : forall m, has_char "b" m = false -> str_in "carbs" m = false).
  { intros m Hm. destruct (str_in "carbs" m) eqn:Hin; [|reflexivity].
    apply (str_in_has_char "b") in Hin; [congruence|reflexivity]. }
  unfold calorie_insights.
  destruct (_ && _); [|intros Heq; injection Heq as <-; reflexivity].
  destruct (_calculate_daily_calories p) as [est|]; [cbn [bind]|discriminate].
  destruct (fltb avg _).
  - destruct (py_int avg) as [shown|]; [cbn [bind]|discriminate].
    intros Heq. injection Heq as <-. unfold any_message_high. cbn [existsb message].
    rewrite Hb; [reflexivity|].
    repeat (cbn -[str_of_int]; rewrite ?has_char_app, ?str_of_int_no_b).
    reflexivity.
  - destruct (fltb _ avg); [|intros Heq; injection Heq as <-; reflexivity].
    destruct (py_int avg) as [shown|]; [cbn [bind]|discriminate].
    intros Heq. injection Heq as <-. unfold any_message_high. cbn [existsb message].
    rewrite Hb; [reflexivity|].
    repeat (cbn -[str_of_int]; rewrite ?has_char_app, ?str_of_int_no_b).
    reflexivity.
Qed.

(** Whatever the logs and the profile, no insight of a report passes the
    test that selects the list for reducing carbohydrates. *)
Lemma no_insight_selects_reduce_carbs (logs : list (food_log F))
    (p : user_profile F) r :
  get_nutrition_insights logs p = Ok r ->
  any_message_high "carbs" (insights_of r) = false.
Proof.
  unfold get_nutrition_insights.
  destruct logs as [|l logs]; [intros Heq; injection Heq as <-; reflexivity|].
  destruct (calorie_distribution _ _ _) as [[pp cp] fp].
  destruct (calorie_insights _ p) as [cal|] eqn:Hcal; [cbn [bind]|discriminate].
  destruct (_generate_food_recommendations _ p) as [recs|]; [cbn [bind]|discriminate].
  intros Heq. injection Heq as <-. cbn [insights_of].
  apply calorie_insights_no_carbs in Hcal.
  unfold any_message_high in *. rewrite !existsb_app, Hcal.
  unfold protein_insights, carbs_insights, fat_insights, fiber_insights,
    sugar_insights.
  repeat match goal with
         | |- context [if ?b then _ else _] => destruct b
         end; reflexivity.
Qed.

End Insights.

(** ** Finite checks in double precision *)

(** Two profiles with the same split have the same targets. *)
Lemma calculate_macros_same_split (F : Type) (H : PyFloat F)
    (p q : user_profile F) (c : Z) :
  macros_of_goals p = macros_of_goals q ->
  _calculate_macros p c = _calculate_macros q c.
Proof. intros Heq. unfold _calculate_macros. now rewrite Heq. Qed.

Lemma grams_within_8_checked :
  forallb (fun C => forallb (fun p => grams_within 8 p C) goal_profiles)
          calorie_totals = true.
Proof. vm_compute. reflexivity. Qed.

(** In double precision, the gram targets stand for the calorie total
    within 8 kcal for every total from 1 to 6000 and every split. *)
Lemma gram_targets_within_8_binary64 (p : user_profile float) (C : Z) :
  0 < C <= 6000 ->
  goals p <> PyNone ->
  exists m,
    _calculate_macros p C = Ok m /\
    Z.abs (calories_of_grams m - C) <= 8.
Proof.
  intros HC Hgoals.
  assert (HinC : In C calorie_totals).
  { unfold calorie_totals. apply in_map_iff. exists (Z.to_nat C).
    split; [lia|]. apply in_seq. lia. }
  pose proof grams_within_8_checked as Hall.
  rewrite forallb_forall in Hall. specialize (Hall C HinC).
  rewrite forallb_forall in Hall.
  destruct (macros_of_goals_defined float binary64 p Hgoals) as [s Hs].
  assert (Hq : exists q, In q goal_profiles /\ macros_of_goals p = macros_of_goals q).
  { rewrite Hs.
    destruct (macros_of_goals_cases float binary64 p s Hs) as [ -> | [ -> | [ -> | -> ] ] ].
    - exists (profile_with_goals Missing). split; [cbn; auto|reflexivity].
    - exists (profile_with_goals (Val "weight_loss")). split; [cbn; auto|reflexivity].
    - exists (profile_with_goals (Val "weight_gain")). split; [cbn; auto|reflexivity].
    - exists (profile_with_goals (Val "muscle_gain")). split; [cbn; auto 6|reflexivity]. }
  destruct Hq as (q & Hin & Heq).
  specialize (Hall q Hin). unfold grams_within in Hall.
  rewrite (calculate_macros_same_split float binary64 p q C Heq).
  destruct (_calculate_macros q C) as [m|]; [|discriminate].
  exists m. split; [reflexivity|]. now apply Z.leb_le.
Qed.

(** The bound 8 is met in double precision: for a weight gain on 14200
    kcal the targets 888, 1953 and 316 g stand for 14208 kcal.  In exact
    arithmetic the carbohydrates are 1952.5 g, rounded to 1952 g. *)
Lemma gram_targets_bound_met :
  (exists m,
      _calculate_macros (profile_with_goals (Val "weight_gain")) 14200 = Ok m /\
      carbs_g m = 1953 /\ calories_of_grams m = 14208) /\
  (exists m,
      _calculate_macros
        {| dietary_preferences := Missing; height := Missing; weight := Missing;
           age := Missing; gender := Missing; activity_level := Missing;
           goals := Val "weight_gain" |} 14200 = Ok m /\
      carbs_g m = 1952 /\ Qeq (carbs_pct m) 55).
Proof.
  split; eexists; (split; [vm_compute; reflexivity|]); split; reflexivity.
Qed.

(** In double precision, the calories do not decrease along the activity
    levels for any profile of the grid. *)
Lemma daily_calories_monotone_on_grid :
  forallb (fun p => nondecreasing (calories_along_levels p)) grid_profiles = true.
Proof. vm_compute. reflexivity. Qed.

(** * Further properties of the code *)

(** ** The calorie target *)

Lemma activity_multipliers_get_unknown (F : Type) (H : PyFloat F)
    (level : string) (default : F) :
  ~ In level activity_levels ->
  activity_multipliers_get (Val level) default = default.
Proof.
  intros Hnot. unfold activity_multipliers_get, activity_multipliers.
  cbn [dict_get].
  repeat match goal with
         | |- context [String.eqb ?a level] =>
             destruct (String.eqb_spec a level) as [Heq|_];
             [exfalso; apply Hnot; rewrite <- Heq; cbn; auto 10|]
         end.
  reflexivity.
Qed.

(** X1.  With the key [activity_level] present, a level that is not one of
    the five names, and [None] as well, gives the calories of the level
    moderately_active. *)
Theorem unknown_activity_level_is_moderate :
  forall (F : Type) (H : PyFloat F) (p : user_profile F) (level : string),
    ~ In level activity_levels ->
    _calculate_daily_calories (set_activity_level p level)
    = _calculate_daily_calories (set_activity_level p "moderately_active") /\
    _calculate_daily_calories (clear_activity_level p)
    = _calculate_daily_calories (set_activity_level p "moderately_active").
Proof.
  intros F H p level Hnot.
  unfold _calculate_daily_calories, set_activity_level, clear_activity_level.
  cbn [weight height age gender activity_level goals has_key].
  rewrite (activity_multipliers_get_unknown F H level _ Hnot).
  split; reflexivity.
Qed.

Lemma unknown_activity_level_is_moderate_witness :
  ~ In "couch potato" activity_levels /\
  _calculate_daily_calories (set_activity_level example_profile "couch potato")
  = _calculate_daily_calories (set_activity_level example_profile "moderately_active").
Proof.
  assert (Hnot : ~ In "couch potato" activity_levels).
  { cbn. intros Hin. repeat (destruct Hin as [Hin|Hin]; [discriminate Hin|]).
    exact Hin. }
  split; [exact Hnot|].
  exact (proj1 (unknown_activity_level_is_moderate float binary64 example_profile
                  "couch potato" Hnot)).
Defined.

(** X2.  The gender enters the calories only through the test whether its
    lowered text is "male": two gender texts on which this test agrees
    give the same calories, whatever the rest of the profile. *)
Theorem gender_matters_as_male_or_not :
  forall (F : Type) (H : PyFloat F) (p : user_profile F) (g1 g2 : string),
    String.eqb (lower g1) "male" = String.eqb (lower g2) "male" ->
    _calculate_daily_calories (set_gender p g1)
    = _calculate_daily_calories (set_gender p g2).
Proof.
  intros F H p g1 g2 Hsame.
  unfold _calculate_daily_calories, set_gender.
  cbn [weight height age gender activity_level goals has_key entry_lower].
  destruct (has_key (weight p) && has_key (height p) && has_key (age p) && true
            && has_key (activity_level p)); [|reflexivity].
  destruct (entry_float (weight p)) as [w|]; [cbn [bind]|reflexivity].
  destruct (entry_float (height p)) as [h|]; [cbn [bind]|reflexivity].
  destruct (entry_int (age p)) as [a|]; [cbn [bind]|reflexivity].
  unfold mifflin_st_jeor. rewrite Hsame. reflexivity.
Qed.

Lemma gender_matters_as_male_or_not_witness :
  String.eqb (lower "MALE") "male" = String.eqb (lower "male") "male" /\
  _calculate_daily_calories (set_gender example_profile "MALE")
  = _calculate_daily_calories (set_gender example_profile "male").
Proof.
  assert (Hsame : String.eqb (lower "MALE") "male" = String.eqb (lower "male") "male")
    by reflexivity.
  split; [exact Hsame|].
  exact (gender_matters_as_male_or_not float binary64 example_profile
           "MALE" "male" Hsame).
Defined.

(** X3.  Both targets read the goal text alike, letter case aside: a text
    that contains weight_loss counts as weight_loss even if it also contains
    weight_gain or muscle_gain; one that contains weight_gain and not
    weight_loss counts as weight_gain; one that contains only muscle_gain
    changes the split and not the calories. *)
Theorem goal_text_precedence :
  forall (F : Type) (H : PyFloat F) (p : user_profile F) (g : string) (c : Z),
    _calculate_daily_calories (set_goals p g)
    = _calculate_daily_calories (set_goals p (goal_class g)) /\
    _calculate_macros (set_goals p g) c
    = _calculate_macros (set_goals p (goal_class g)) c.
Proof.
  intros F H p g c.
  unfold _calculate_daily_calories, _calculate_macros, macros_of_goals, set_goals,
    goal_class.
  cbn [weight height age gender activity_level goals has_key entry_lower bind].
  destruct (str_in "weight_loss" (lower g)); [split; reflexivity|].
  destruct (str_in "weight_gain" (lower g)); [split; reflexivity|].
  destruct (str_in "muscle_gain" (lower g)); split; reflexivity.
Qed.

(** ** The day plans of the recommender *)

(** A loop whose body makes one draw makes one draw for each item. *)
Lemma for_each_draws {A S : Type} (xs : list A) (body : S -> A -> Rand S) :
  (forall acc x n acc' n', body acc x n = Ok (acc', n') -> n' = Datatypes.S n) ->
  forall acc n acc' n',
    for_each xs body acc n = Ok (acc', n') -> n' = (n + List.length xs)%nat.
Proof.
  intros Hbody. induction xs as [|x xs IH]; intros acc n acc' n' Hrun.
  - cbn in Hrun. unfold ret in Hrun. injection Hrun as _ <-. cbn. lia.
  - cbn [for_each] in Hrun. unfold rbind in Hrun.
    destruct (body acc x n) as [[acc1 n1]|] eqn:Hstep; [|discriminate Hrun].
    apply Hbody in Hstep. apply IH in Hrun. cbn [List.length]. lia.
Qed.

Lemma has_char_replaced (a b : ascii) (s : string) :
  Ascii.eqb a b = false -> has_char a (replace_char a b s) = false.
Proof.
  intros Hab. induction s as [|c s IH]; [reflexivity|].
  cbn [replace_char has_char]. rewrite IH, orb_false_r.
  destruct (Ascii.eqb c a) eqn:Hc; [exact Hab|].
  rewrite Ascii.eqb_sym. exact Hc.
Qed.

Section DayPlan.

Context {F : Type} `{PyFloat F}.

(** One pass of the loop body draws once, appends the meal made of the
    food drawn and adds it to the running totals. *)
Lemma add_meal_inversion rng total (filtered_foods : list (food F)) acc item n
    acc' n' :
  add_meal rng total filtered_foods acc item n = Ok (acc', n') ->
  n' = Datatypes.S n /\
  exists m,
    drawn_meal total filtered_foods item m /\
    acc' = {| meals := (meals acc ++ [m])%list;
              totalCalories := totalCalories acc + m_calories m;
              totalProtein := (totalProtein acc + m_protein m)%num;
              totalCarbs := (totalCarbs acc + m_carbs m)%num;
              totalFat := (totalFat acc + m_fat m)%num |}.
Proof.
  unfold add_meal. destruct item as [meal_type percentage].
  unfold rbind at 1, lift.
  destruct (meal_calories_of total percentage) as [target|] eqn:Htarget;
    [|discriminate].
  unfold rbind at 1.
  destruct (sample rng _ n) as [[f k]|] eqn:Hsample; [|discriminate].
  unfold rbind at 1.
  destruct (py_int _) as [cal|] eqn:Hcal; [|discriminate].
  unfold ret. intros Heq. injection Heq as <- <-.
  assert (Hk : k = Datatypes.S n).
  { unfold sample in Hsample.
    destruct (nth_error _ _); [|discriminate Hsample].
    now injection Hsample as _ <-. }
  split; [exact Hk|].
  apply sample_In in Hsample. apply suitable_foods_incl in Hsample.
  exists (meal_of_food target (meal_type, percentage) f cal).
  split; [|reflexivity].
  exists target, f, cal. cbn [snd]. repeat split; assumption.
Qed.

(** The day plan holds one meal for each entry of the share table, in its
    order, and the totals of these meals; four draws are made. *)
Lemma generate_day_plan_inversion (self : MealRecommender F) rng total macros
    (p : user_profile F) n dp n' :
  _generate_day_plan self rng total macros p n = Ok (dp, n') ->
  exists foods filtered_foods,
    food_database self = Some foods /\
    filter_preferences foods p = Ok filtered_foods /\
    n' = (n + 4)%nat /\
    Forall2 (drawn_meal total filtered_foods) meal_distribution (meals dp) /\
    totalCalories dp = sum_Z (map m_calories (meals dp)) /\
    totalProtein dp = np_round (py_sum (map m_protein (meals dp))) 1 /\
    totalCarbs dp = np_round (py_sum (map m_carbs (meals dp))) 1 /\
    totalFat dp = np_round (py_sum (map m_fat (meals dp))) 1.
Proof.
  unfold _generate_day_plan.
  destruct (food_database self) as [foods|]; [|discriminate].
  unfold rbind at 1, lift.
  destruct (filter_preferences foods p) as [ff|] eqn:Hff; [|discriminate].
  unfold rbind at 1.
  destruct (for_each _ _ _ n) as [[acc k]|] eqn:Hloop; [|discriminate].
  unfold ret. intros Heq. injection Heq as <- <-.
  cbn [meals totalCalories totalProtein totalCarbs totalFat].
  exists foods, ff. split; [reflexivity|]. split; [exact Hff|].
  split.
  { apply for_each_draws in Hloop; [exact Hloop|].
    intros a x k1 a' k2 Hstep. now apply add_meal_inversion in Hstep. }
  apply (@for_each_fold _ _
           (fun items (a a' : day_plan F) =>
              exists ms,
                meals a' = (meals a ++ ms)%list /\
                Forall2 (drawn_meal total ff) items ms /\
                totalCalories a' = fold_left Z.add (map m_calories ms) (totalCalories a) /\
                totalProtein a' = fold_left fadd (map m_protein ms) (totalProtein a) /\
                totalCarbs a' = fold_left fadd (map m_carbs ms) (totalCarbs a) /\
                totalFat a' = fold_left fadd (map m_fat ms) (totalFat a)))
    in Hloop.
  - destruct Hloop as (ms & Hms & Hall & Hc & Hp & Hcb & Hf).
    cbn in Hms, Hc, Hp, Hcb, Hf. subst ms.
    unfold sum_Z, py_sum. rewrite Hc, Hp, Hcb, Hf. auto.
  - intros a. exists []. cbn. rewrite app_nil_r. repeat split. constructor.
  - intros x ys a a1 a2 k1 k2 Hstep (ms & Hms & Hall & Hc & Hp & Hcb & Hf).
    apply add_meal_inversion in Hstep. destruct Hstep as (_ & m & Hm & ->).
    cbn [meals totalCalories totalProtein totalCarbs totalFat] in *.
    exists (m :: ms). cbn [map fold_left].
    rewrite Hms, <- app_assoc. cbn [app].
    repeat split; try assumption. now constructor.
Qed.

(** Every day plan of a plan that the recommender returned was made by
    [_generate_day_plan] from the calorie target of the profile. *)
Lemma generate_meal_plan_days (self : MealRecommender F) rng
    (p : user_profile F) days plan d dp :
  generate_meal_plan self rng p days = Some plan ->
  In (d, dp) plan ->
  exists c m n1 n2,
    _calculate_daily_calories p = Ok c /\
    _generate_day_plan self rng c m p n1 = Ok (dp, n2).
Proof.
  unfold generate_meal_plan.
  destruct (food_database self); [|discriminate].
  destruct (generate_meal_plan_body self rng p days 0%nat) as [[pl k]|] eqn:Hbody;
    [|discriminate].
  intros Heq Hin. injection Heq as ->.
  apply generate_meal_plan_body_days in Hbody.
  destruct Hbody as (c & m & Hc & _ & Hdays).
  destruct (Hdays d dp Hin) as (n1 & n2 & Hday).
  exists c, m, n1, n2. auto.
Qed.

End DayPlan.

(** X4.  In every day of a plan that the recommender returns there are
    four meals, of the types breakfast, lunch, dinner and snack in this
    order, and the totals of the day are those of its meals: the calories
    are their sum, and protein, carbohydrates and fat are the sums rounded
    to one decimal. *)
Theorem day_totals_are_sums_of_meals :
  forall (F : Type) (H : PyFloat F) (self : MealRecommender F) (rng : nat -> nat)
         (p : user_profile F) (days : Z) (plan : list (string * day_plan F))
         (d : string) (dp : day_plan F),
    generate_meal_plan self rng p days = Some plan ->
    In (d, dp) plan ->
    map m_type (meals dp) = ["breakfast"; "lunch"; "dinner"; "snack"] /\
    totalCalories dp = sum_Z (map m_calories (meals dp)) /\
    totalProtein dp = np_round (py_sum (map m_protein (meals dp))) 1 /\
    totalCarbs dp = np_round (py_sum (map m_carbs (meals dp))) 1 /\
    totalFat dp = np_round (py_sum (map m_fat (meals dp))) 1.
Proof.
  intros F H self rng p days plan d dp Hplan Hin.
  destruct (generate_meal_plan_days self rng p days plan d dp Hplan Hin)
    as (c & m & n1 & n2 & _ & Hday).
  apply generate_day_plan_inversion in Hday.
  destruct Hday as (foods & ff & _ & _ & _ & Hall & Htotals).
  split; [|exact Htotals].
  unfold meal_distribution in Hall.
  repeat match goal with
         | Hx : Forall2 _ (_ :: _) _ |- _ =>
             inversion Hx as [|? ? ? ? ?Hm ?Hrest]; subst; clear Hx
         | Hx : Forall2 _ [] _ |- _ => inversion Hx; subst; clear Hx
         | Hx : drawn_meal _ _ _ _ |- _ =>
             destruct Hx as (? & ? & ? & _ & _ & _ & ->)
         end.
  reflexivity.
Qed.

Lemma day_totals_are_sums_of_meals_witness :
  exists plan d dp,
    generate_meal_plan sample_recommender draws example_profile 2 = Some plan /\
    In (d, dp) plan /\
    totalCalories dp = sum_Z (map m_calories (meals dp)).
Proof.
  assert (Hplan : exists d dp rest,
             generate_meal_plan sample_recommender draws example_profile 2
             = Some ((d, dp) :: rest)).
  { vm_compute. do 3 eexists. reflexivity. }
  destruct Hplan as (d & dp & rest & Hplan).
  exists ((d, dp) :: rest), d, dp.
  assert (Hin : In (d, dp) ((d, dp) :: rest)) by (left; reflexivity).
  split; [exact Hplan|]. split; [exact Hin|].
  exact (proj1 (proj2 (day_totals_are_sums_of_meals float binary64
           sample_recommender draws example_profile 2 _ d dp Hplan Hin))).
Defined.

(** *** Exact arithmetic *)








(** *** Where the meals come from *)

Lemma filter_preferences_incl (F : Type) (H : PyFloat F) (foods : list (food F))
    (p : user_profile F) (filtered_foods : list (food F)) :
  filter_preferences foods p = Ok filtered_foods ->
  incl filtered_foods foods.
Proof.
  unfold filter_preferences.
  destruct (match dietary_preferences p with
            | Missing => Ok (lower "")
            | e => entry_lower e
            end) as [prefs|]; [cbn [bind]|discriminate].
  destruct (str_in "vegetarian" prefs); intros Heq; injection Heq as <-.
  - intros f Hin. apply filter_In in Hin. tauto.
  - apply incl_refl.
Qed.

(** X6.  Every meal of a plan that the recommender returns is made of a
    row of the food database: it carries the label and the weight of that
    row, and its recipe link is the fixed address followed by the lowered
    label with hyphens for spaces, so that the link holds no space. *)
Theorem plan_meals_come_from_database :
  forall (F : Type) (H : PyFloat F) (self : MealRecommender F) (rng : nat -> nat)
         (p : user_profile F) (days : Z) (plan : list (string * day_plan F))
         (d : string) (dp : day_plan F) (m : meal F),
    generate_meal_plan self rng p days = Some plan ->
    In (d, dp) plan ->
    In m (meals dp) ->
    exists foods f,
      food_database self = Some foods /\ In f foods /\
      m_name m = food_label f /\
      m_serving_size m = food_weight f /\
      m_recipe_link m
      = "https://example.com/recipes/" ++ replace_char " " "-" (lower (food_label f)) /\
      has_char " " (m_recipe_link m) = false.
Proof.
  intros F H self rng p days plan d dp m Hplan Hin Hm.
  destruct (generate_meal_plan_days self rng p days plan d dp Hplan Hin)
    as (c & mt & n1 & n2 & _ & Hday).
  apply generate_day_plan_inversion in Hday.
  destruct Hday as (foods & ff & Hdb & Hff & _ & Hall & _).
  apply (filter_preferences_incl F H) in Hff.
  assert (Hdrawn : exists item, drawn_meal c ff item m).
  { clear - Hall Hm. induction Hall as [|item m' items ms Hhead Htail IH].
    - destruct Hm.
    - destruct Hm as [<-|Hm]; [now exists item|now apply IH]. }
  destruct Hdrawn as (item & target & f & cal & _ & Hf & _ & ->).
  exists foods, f. cbn [meal_of_food m_name m_serving_size m_recipe_link].
  split; [exact Hdb|]. split; [exact (Hff f Hf)|].
  split; [reflexivity|]. split; [reflexivity|]. split; [reflexivity|].
  rewrite has_char_app, has_char_replaced by reflexivity. reflexivity.
Qed.

Lemma plan_meals_come_from_database_witness :
  exists plan d dp m,
    generate_meal_plan sample_recommender draws example_profile 1 = Some plan /\
    In (d, dp) plan /\ In m (meals dp) /\
    has_char " " (m_recipe_link m) = false.
Proof.
  assert (Hplan : exists d m ms c pr cb ft rest,
             generate_meal_plan sample_recommender draws example_profile 1
             = Some ((d, (@Build_day_plan float (m :: ms) c pr cb ft)) :: rest)).
  { vm_compute. do 8 eexists. reflexivity. }
  destruct Hplan as (d & m & ms & c & pr & cb & ft & rest & Hplan).
  exists ((d, (@Build_day_plan float (m :: ms) c pr cb ft)) :: rest), d,
    (@Build_day_plan float (m :: ms) c pr cb ft), m.
  assert (Hin : In (d, (@Build_day_plan float (m :: ms) c pr cb ft))
                   ((d, (@Build_day_plan float (m :: ms) c pr cb ft)) :: rest))
    by (left; reflexivity).
  assert (Hm : In m (meals (@Build_day_plan float (m :: ms) c pr cb ft)))
    by (left; reflexivity).
  split; [exact Hplan|]. split; [exact Hin|]. split; [exact Hm|].
  destruct (plan_meals_come_from_database float binary64 sample_recommender draws
              example_profile 1 _ d _ m Hplan Hin Hm)
    as (foods & f & _ & _ & _ & _ & _ & Hlink).
  exact Hlink.
Defined.

(** ** The goal and the calories *)




(** ** Insights and food recommendations *)

(** X8.  Whatever the insights, the list of food recommendations has at
    least 3 and at most 10 entries. *)
Theorem food_recommendations_between_3_and_10 :
  forall (F : Type) (H : PyFloat F) (insights : list insight)
         (p : user_profile F) (recommendations : list string),
    _generate_food_recommendations insights p = Ok recommendations ->
    (3 <= List.length recommendations <= 10)%nat.
Proof.
  intros F H insights p recs. unfold _generate_food_recommendations.
  destruct (mem "protein" _).
  - destruct (match dietary_preferences p with
              | Missing => Ok (lower "")
              | e => entry_lower e
              end) as [prefs|]; [cbn [bind]|discriminate].
    destruct (str_in "vegetarian" prefs); cbn [bind];
      destruct (mem "carbs" _); try destruct (any_message_high "carbs" _);
      destruct (mem "fat" _); try destruct (any_message_high "fat" _);
      destruct (mem "fiber" _); destruct (mem "sugar" _);
      intros Heq; injection Heq as <-; cbn; lia.
  - cbn [bind].
    destruct (mem "carbs" _); try destruct (any_message_high "carbs" _);
      destruct (mem "fat" _); try destruct (any_message_high "fat" _);
      destruct (mem "fiber" _); destruct (mem "sugar" _);
      intros Heq; injection Heq as <-; cbn; lia.
Qed.

Lemma food_recommendations_between_3_and_10_witness :
  exists recommendations,
    _generate_food_recommendations [carbs_high_insight] example_profile
    = Ok recommendations /\
    (3 <= List.length recommendations <= 10)%nat.
Proof.
  eexists. split; [reflexivity|].
  exact (food_recommendations_between_3_and_10 float binary64
           [carbs_high_insight] example_profile _ eq_refl).
Defined.

(** X9.  When no insight of priority high or medium concerns protein,
    carbs, fat, fiber or sugar, the recommendations are the five general
    ones, whatever the profile holds. *)
Theorem general_recommendations_when_nothing_to_improve :
  forall (F : Type) (H : PyFloat F) (insights : list insight) (p : user_profile F),
    (forall c, In c ["protein"; "carbs"; "fat"; "fiber"; "sugar"] ->
               mem c (categories_to_improve insights) = false) ->
    _generate_food_recommendations insights p = Ok general_foods.
Proof.
  intros F H insights p Hnone. unfold _generate_food_recommendations.
  fold (categories_to_improve insights).
  rewrite !Hnone by (cbn; auto 10). reflexivity.
Qed.

Lemma general_recommendations_when_nothing_to_improve_witness :
  _generate_food_recommendations
    [ {| category := "calories"; message := "";
         recommendation := ""; priority := "high" |};
      {| category := "protein"; message := "";
         recommendation := ""; priority := "low" |} ]
    empty_profile = Ok general_foods.
Proof.
  apply (general_recommendations_when_nothing_to_improve float binary64).
  intros c Hc. cbn in Hc.
  repeat (destruct Hc as [<-|Hc]; [reflexivity|]). destruct Hc.
Defined.

(** X10.  With the key [dietary_preferences] holding [None], the
    recommendations raise [AttributeError] exactly when an insight of
    priority high or medium concerns protein. *)
Theorem recommendations_need_preferences_for_protein :
  forall (F : Type) (H : PyFloat F) (insights : list insight) (p : user_profile F),
    dietary_preferences p = PyNone ->
    (mem "protein" (categories_to_improve insights) = true ->
     _generate_food_recommendations insights p = Raise AttributeError) /\
    (mem "protein" (categories_to_improve insights) = false ->
     exists recommendations,
       _generate_food_recommendations insights p = Ok recommendations).
Proof.
  intros F H insights p Hnone. unfold _generate_food_recommendations.
  fold (categories_to_improve insights). rewrite Hnone.
  split; intros ->; cbn [entry_lower bind]; [reflexivity|].
  eexists. reflexivity.
Qed.

Lemma recommendations_need_preferences_for_protein_witness :
  _generate_food_recommendations
    [ {| category := "protein"; message := "";
         recommendation := ""; priority := "medium" |} ]
    (Routes.user_dict
       {| Main.dietary_preferences := None; Main.height := Some 175%float;
          Main.weight := Some 70%float; Main.age := Some 30;
          Main.gender := Some "male"; Main.activity_level := None;
          Main.goals := Some "" |})
  = Raise AttributeError.
Proof.
  apply (recommendations_need_preferences_for_protein float binary64);
    reflexivity.
Defined.

Lemma str_of_int_no_f n : has_char "f" (str_of_int n) = false.
Proof.
  assert (Hu : forall d, has_char "f" (NilEmpty.string_of_uint d) = false).
  { induction d; cbn; auto. }
  unfold str_of_int, NilZero.string_of_int.
  destruct (Z.to_int n) as [d|d]; cbn; destruct d; cbn; auto.
Qed.

Section Reports.

Context {F : Type} `{PyFloat F}.

(** The insights of a report, in the order in which they are appended, and
    its recommendations. *)
Lemma report_inversion (logs : list (food_log F)) (p : user_profile F)
    ratios averages insights recommendations :
  get_nutrition_insights logs p = Ok (Report ratios averages insights recommendations) ->
  exists protein_pct carbs_pct fat_pct avg_fiber avg_sugar avg_calories calories,
    calorie_insights avg_calories p = Ok calories /\
    insights = (protein_insights protein_pct ++ carbs_insights carbs_pct
                ++ fat_insights fat_pct ++ fiber_insights avg_fiber
                ++ sugar_insights avg_sugar ++ calories)%list /\
    _generate_food_recommendations insights p = Ok recommendations.
Proof.
  unfold get_nutrition_insights.
  destruct logs as [|l logs]; [discriminate|].
  destruct (calorie_distribution _ _ _) as [[pp cp] fp].
  destruct (calorie_insights _ p) as [cal|] eqn:Hcal; [cbn [bind]|discriminate].
  destruct (_generate_food_recommendations _ p) as [recs|] eqn:Hrecs;
    [cbn [bind]|discriminate].
  intros Heq. injection Heq as _ _ <- <-.
  do 6 eexists. exists cal. split; [exact Hcal|].
  rewrite <- !app_assoc in Hrecs |- *. split; [reflexivity|exact Hrecs].
Qed.

Lemma calorie_insights_category (avg : F) (p : user_profile F) l :
  calorie_insights avg p = Ok l ->
  map category l = [] \/ map category l = ["calories"].
Proof.
  unfold calorie_insights.
  destruct (_ && _); [|intros Heq; injection Heq as <-; auto].
  destruct (_calculate_daily_calories p) as [est|]; [cbn [bind]|discriminate].
  destruct (fltb avg _).
  - destruct (py_int avg) as [shown|]; [cbn [bind]|discriminate].
    intros Heq. injection Heq as <-. auto.
  - destruct (fltb _ avg); [|intros Heq; injection Heq as <-; auto].
    destruct (py_int avg) as [shown|]; [cbn [bind]|discriminate].
    intros Heq. injection Heq as <-. auto.
Qed.

(** The insight for the calories does not pass the test for fat. *)
Lemma calorie_insights_no_fat (avg : F) (p : user_profile F) l :
  calorie_insights avg p = Ok l ->
  any_message_high "fat" l = false /\
  existsb (fun i => String.eqb (message i) fat_high_message) l = false.
Proof.
  assert (Hb : forall m, has_char "f" m = false -> str_in "fat" m = false).
  { intros m Hm. destruct (str_in "fat" m) eqn:Hin; [|reflexivity].
    apply (str_in_has_char "f") in Hin; [congruence|reflexivity]. }
  assert (Hm : forall m, has_char "f" m = false ->
                         String.eqb m fat_high_message = false).
  { intros m Hf. destruct (String.eqb_spec m fat_high_message) as [->|];
      [discriminate Hf|reflexivity]. }
  unfold calorie_insights.
  destruct (_ && _); [|intros Heq; injection Heq as <-; split; reflexivity].
  destruct (_calculate_daily_calories p) as [est|]; [cbn [bind]|discriminate].
  destruct (fltb avg _).
  - destruct (py_int avg) as [shown|]; [cbn [bind]|discriminate].
    intros Heq. injection Heq as <-. unfold any_message_high.
    cbn [existsb message].
    rewrite Hb, Hm; [split; reflexivity| |];
      repeat (cbn -[str_of_int]; rewrite ?has_char_app, ?str_of_int_no_f);
      reflexivity.
  - destruct (fltb _ avg); [|intros Heq; injection Heq as <-; split; reflexivity].
    destruct (py_int avg) as [shown|]; [cbn [bind]|discriminate].
    intros Heq. injection Heq as <-. unfold any_message_high.
    cbn [existsb message].
    rewrite Hb, Hm; [split; reflexivity| |];
      repeat (cbn -[str_of_int]; rewrite ?has_char_app, ?str_of_int_no_f);
      reflexivity.
Qed.

End Reports.

(** X11.  A report holds at most one insight for each of the categories
    protein, carbs, fat, fiber, sugar and calories, in this order; so it
    holds at most six insights. *)
Theorem report_insights_in_category_order :
  forall (F : Type) (H : PyFloat F) (logs : list (food_log F)) (p : user_profile F)
         (r : insight_report F),
    get_nutrition_insights logs p = Ok r ->
    is_subsequence (map category (insights_of r))
      ["protein"; "carbs"; "fat"; "fiber"; "sugar"; "calories"] = true /\
    (List.length (insights_of r) <= 6)%nat.
Proof.
  intros F H logs p r Hr.
  destruct r as [msg ins|ratios averages ins recs].
  - unfold get_nutrition_insights in Hr. destruct logs as [|l logs].
    + injection Hr as _ <-. split; [reflexivity|cbn; lia].
    + destruct (calorie_distribution _ _ _) as [[pp cp] fp].
      destruct (calorie_insights _ p); [cbn [bind] in Hr|discriminate Hr].
      destruct (_generate_food_recommendations _ p); discriminate Hr.
  - apply report_inversion in Hr.
    destruct Hr as (pp & cp & fp & af & asg & ac & cal & Hcal & -> & _).
    cbn [insights_of]. apply calorie_insights_category in Hcal.
    rewrite <- (length_map category), !map_app.
    unfold protein_insights, carbs_insights, fat_insights, fiber_insights,
      sugar_insights.
    repeat match goal with
           | |- context [if ?b then _ else _] => destruct b
           end;
      destruct Hcal as [-> | ->]; split; cbn; try reflexivity; lia.
Qed.

Lemma report_insights_in_category_order_witness :
  exists r,
    get_nutrition_insights high_carb_logs example_profile = Ok r /\
    (List.length (insights_of r) <= 6)%nat.
Proof.
  destruct (get_nutrition_insights high_carb_logs example_profile) as [r|] eqn:Hr;
    [|discriminate Hr].
  exists r. split; [reflexivity|].
  exact (proj2 (report_insights_in_category_order float binary64 high_carb_logs
                  example_profile r Hr)).
Defined.

(** X12.  In a report, the test that selects the list for healthier fats
    holds exactly when the insight for too much fat is among the insights:
    no other message holds both words. *)
Theorem fat_test_holds_for_high_fat_only :
  forall (F : Type) (H : PyFloat F) (logs : list (food_log F)) (p : user_profile F)
         (r : insight_report F),
    get_nutrition_insights logs p = Ok r ->
    any_message_high "fat" (insights_of r)
    = existsb (fun i => String.eqb (message i) fat_high_message) (insights_of r).
Proof.
  intros F H logs p r Hr.
  destruct r as [msg ins|ratios averages ins recs].
  - unfold get_nutrition_insights in Hr. destruct logs as [|l logs].
    + injection Hr as _ <-. reflexivity.
    + destruct (calorie_distribution _ _ _) as [[pp cp] fp].
      destruct (calorie_insights _ p); [cbn [bind] in Hr|discriminate Hr].
      destruct (_generate_food_recommendations _ p); discriminate Hr.
  - apply report_inversion in Hr.
    destruct Hr as (pp & cp & fp & af & asg & ac & cal & Hcal & -> & _).
    cbn [insights_of]. apply calorie_insights_no_fat in Hcal.
    destruct Hcal as [Hfat Hmsg].
    unfold any_message_high in *. rewrite !existsb_app, Hfat, Hmsg.
    unfold protein_insights, carbs_insights, fat_insights, fiber_insights,
      sugar_insights.
    repeat match goal with
           | |- context [if ?b then _ else _] => destruct b
           end; reflexivity.
Qed.

Lemma fat_test_holds_for_high_fat_only_witness :
  exists r,
    get_nutrition_insights low_carb_logs example_profile = Ok r /\
    any_message_high "fat" (insights_of r)
    = existsb (fun i => String.eqb (message i) fat_high_message) (insights_of r).
Proof.
  destruct (get_nutrition_insights low_carb_logs example_profile) as [r|] eqn:Hr;
    [|discriminate Hr].
  exists r. split; [reflexivity|].
  exact (fat_test_holds_for_high_fat_only float binary64 low_carb_logs
           example_profile r Hr).
Defined.

(** X13.  In a report with an insight of priority high or medium for
    protein and one for carbs, the recommendations are the five protein
    foods followed by the five foods for more carbohydrates: what is
    recommended for fat, fiber or sugar is cut off. *)
Theorem protein_and_carbs_fill_the_recommendations :
  forall (F : Type) (H : PyFloat F) (logs : list (food_log F)) (p : user_profile F)
         ratios averages (insights : list insight) (recommendations : list string),
    get_nutrition_insights logs p = Ok (Report ratios averages insights recommendations) ->
    mem "protein" (categories_to_improve insights) = true ->
    mem "carbs" (categories_to_improve insights) = true ->
    recommendations = (protein_foods ++ increase_carbs_foods)%list \/
    recommendations = (vegetarian_protein_foods ++ increase_carbs_foods)%list.
Proof.
  intros F H logs p ratios averages ins recs Hr Hprotein Hcarbs.
  pose proof (no_insight_selects_reduce_carbs logs p _ Hr) as Hhigh.
  cbn [insights_of] in Hhigh.
  apply report_inversion in Hr.
  destruct Hr as (pp & cp & fp & af & asg & ac & cal & _ & _ & Hrecs).
  unfold _generate_food_recommendations in Hrecs.
  fold (categories_to_improve ins) in Hrecs.
  rewrite Hprotein, Hcarbs, Hhigh in Hrecs.
  destruct (match dietary_preferences p with
            | Missing => Ok (lower "")
            | e => entry_lower e
            end) as [prefs|]; [cbn [bind] in Hrecs|discriminate Hrecs].
  destruct (str_in "vegetarian" prefs); cbn [bind] in Hrecs;
    destruct (mem "fat" _); try destruct (any_message_high "fat" _);
    destruct (mem "fiber" _); destruct (mem "sugar" _);
    injection Hrecs as <-; auto.
Qed.

Lemma protein_and_carbs_fill_the_recommendations_witness :
  exists ratios averages insights recommendations,
    get_nutrition_insights starchy_logs example_profile
    = Ok (Report ratios averages insights recommendations) /\
    mem "protein" (categories_to_improve insights) = true /\
    mem "carbs" (categories_to_improve insights) = true /\
    mem "fat" (categories_to_improve insights) = true /\
    recommendations = (protein_foods ++ increase_carbs_foods)%list.
Proof.
  assert (Hr : exists ratios averages insights recommendations,
             get_nutrition_insights starchy_logs example_profile
             = Ok (Report ratios averages insights recommendations) /\
             mem "protein" (categories_to_improve insights) = true /\
             mem "carbs" (categories_to_improve insights) = true /\
             mem "fat" (categories_to_improve insights) = true /\
             hd "" recommendations = "Chicken breast (lean protein)").
  { vm_compute. do 4 eexists. split; [reflexivity|]. repeat split. }
  destruct Hr as (ratios & averages & ins & recs & Hr & Hp & Hc & Hf & Hhd).
  exists ratios, averages, ins, recs.
  split; [exact Hr|]. split; [exact Hp|]. split; [exact Hc|]. split; [exact Hf|].
  destruct (protein_and_carbs_fill_the_recommendations float binary64 starchy_logs
              example_profile ratios averages ins recs Hr Hp Hc) as [Heq|Heq].
  - exact Heq.
  - rewrite Heq in Hhd. discriminate Hhd.
Defined.



(** ** The callers in [backend/main.py] *)

Section Callers.

Context {F : Type} `{PyFloat F}.

(** Every key of the dictionary that the routes build is present. *)
Lemma user_dict_has_keys (u : Main.User F) :
  has_key (weight (Routes.user_dict u)) = true /\
  has_key (height (Routes.user_dict u)) = true /\
  has_key (age (Routes.user_dict u)) = true /\
  has_key (gender (Routes.user_dict u)) = true /\
  has_key (activity_level (Routes.user_dict u)) = true /\
  has_key (goals (Routes.user_dict u)) = true.
Proof.
  unfold Routes.user_dict. cbn [weight height age gender activity_level goals].
  destruct (Main.weight u), (Main.height u), (Main.age u), (Main.gender u),
    (Main.activity_level u), (Main.goals u); repeat split.
Qed.

(** For a user row without weight, height, age, gender or goals, the
    calorie target raises. *)
Lemma daily_calories_of_incomplete_user (u : Main.User F) :
  Main.weight u = None \/ Main.height u = None \/ Main.age u = None \/
  Main.gender u = None \/ Main.goals u = None ->
  exists e, _calculate_daily_calories (Routes.user_dict u) = Raise e.
Proof.
  intros Hnone. unfold _calculate_daily_calories.
  destruct (user_dict_has_keys u) as (-> & -> & -> & -> & -> & ->).
  cbn [andb]. unfold Routes.user_dict.
  cbn [weight height age gender activity_level goals].
  destruct (Main.weight u) as [w|]; cbn [Routes.optional_entry entry_float bind];
    [|eexists; reflexivity].
  destruct (Main.height u) as [h|]; cbn [Routes.optional_entry entry_float bind];
    [|eexists; reflexivity].
  destruct (Main.age u) as [a|]; cbn [Routes.optional_entry entry_int bind];
    [|eexists; reflexivity].
  destruct (Main.gender u) as [g|]; cbn [Routes.optional_entry entry_lower bind];
    [|eexists; reflexivity].
  destruct (Main.goals u) as [gl|]; cbn [Routes.optional_entry entry_lower bind];
    [|eexists; reflexivity].
  destruct Hnone as [Hn|[Hn|[Hn|[Hn|Hn]]]]; discriminate Hn.
Qed.

End Callers.

(** X15.  For a user row in which weight, height, age, gender or goals is
    not set, [generate_ai_meal_plan] answers with the status 500, whatever
    the food database and the number of days. *)
Theorem ai_plan_fails_for_incomplete_user :
  forall (F : Type) (H : PyFloat F) (meal_recommender : MealRecommender F)
         (rng : nat -> nat) (days : Z) (current_user : Main.User F),
    Main.weight current_user = None \/ Main.height current_user = None \/
    Main.age current_user = None \/ Main.gender current_user = None \/
    Main.goals current_user = None ->
    Routes.generate_ai_meal_plan meal_recommender rng days current_user
    = Routes.Raises {| Routes.status_code := 500;
                       Routes.detail := "Failed to generate meal plan" |}.
Proof.
  intros F H mr rng days u Hnone.
  destruct (daily_calories_of_incomplete_user u Hnone) as [e He].
  unfold Routes.generate_ai_meal_plan, generate_meal_plan, generate_meal_plan_body.
  destruct (food_database mr); [|reflexivity].
  unfold rbind at 1, lift. rewrite He. reflexivity.
Qed.

Lemma ai_plan_fails_for_incomplete_user_witness :
  Routes.generate_ai_meal_plan sample_recommender draws 7 new_user
  = Routes.Raises {| Routes.status_code := 500;
                     Routes.detail := "Failed to generate meal plan" |}.
Proof.
  apply (ai_plan_fails_for_incomplete_user float binary64).
  left. reflexivity.
Defined.

(** X16.  For a user row without dietary preferences,
    [generate_ai_meal_plan] answers with the status 500 for every number
    of days. *)
Theorem ai_plan_fails_without_preferences :
  forall (F : Type) (H : PyFloat F) (meal_recommender : MealRecommender F)
         (rng : nat -> nat) (days : Z) (current_user : Main.User F),
    Main.dietary_preferences current_user = None ->
    Routes.generate_ai_meal_plan meal_recommender rng days current_user
    = Routes.Raises {| Routes.status_code := 500;
                       Routes.detail := "Failed to generate meal plan" |}.
Proof.
  intros F H mr rng days u Hnone.
  unfold Routes.generate_ai_meal_plan, generate_meal_plan, generate_meal_plan_body.
  destruct (food_database mr) as [foods|] eqn:Hdb; [|reflexivity].
  unfold rbind at 1, lift.
  destruct (_calculate_daily_calories (Routes.user_dict u)) as [c|]; [|reflexivity].
  unfold rbind at 1.
  destruct (_calculate_macros (Routes.user_dict u) c) as [m|]; [|reflexivity].
  unfold range. destruct (Z.to_nat days) as [|k]; [reflexivity|].
  cbn [seq for_each]. unfold rbind at 1. unfold rbind at 1.
  unfold _generate_day_plan. rewrite Hdb.
  unfold rbind at 1, lift, filter_preferences, Routes.user_dict.
  cbn [dietary_preferences]. rewrite Hnone. reflexivity.
Qed.

Lemma ai_plan_fails_without_preferences_witness :
  Routes.generate_ai_meal_plan sample_recommender draws 7 user_without_preferences
  = Routes.Raises {| Routes.status_code := 500;
                     Routes.detail := "Failed to generate meal plan" |}.
Proof.
  apply (ai_plan_fails_without_preferences float binary64). reflexivity.
Defined.

(** X17.  A plan that [generate_ai_meal_plan] returns is never empty: the
    number of days asked for is at least 1, and the plan holds the first
    [min(days, 7)] day names from monday on. *)
Theorem ai_plan_returned_is_not_empty :
  forall (F : Type) (H : PyFloat F) (meal_recommender : MealRecommender F)
         (rng : nat -> nat) (days : Z) (current_user : Main.User F)
         (meal_plan : list (string * day_plan F)),
    Routes.generate_ai_meal_plan meal_recommender rng days current_user
    = Routes.Returns meal_plan ->
    1 <= days /\ meal_plan <> [] /\
    map fst meal_plan = firstn (Nat.min (Z.to_nat days) 7) days_of_week.
Proof.
  intros F H mr rng days u plan. unfold Routes.generate_ai_meal_plan.
  destruct (generate_meal_plan mr rng (Routes.user_dict u) days)
    as [[|day rest]|] eqn:Hplan; try discriminate.
  intros Heq. injection Heq as <-.
  apply generate_meal_plan_keys in Hplan.
  split; [|split; [discriminate|exact Hplan]].
  destruct (Z.to_nat days) as [|k] eqn:Hk; [discriminate Hplan|lia].
Qed.

Lemma ai_plan_returned_is_not_empty_witness :
  exists meal_plan,
    Routes.generate_ai_meal_plan sample_recommender draws 2 complete_user
    = Routes.Returns meal_plan /\
    map fst meal_plan = ["monday"; "tuesday"].
Proof.
  assert (Hplan : exists meal_plan,
             Routes.generate_ai_meal_plan sample_recommender draws 2 complete_user
             = Routes.Returns meal_plan).
  { vm_compute. eexists. reflexivity. }
  destruct Hplan as (plan & Hplan). exists plan. split; [exact Hplan|].
  exact (proj2 (proj2 (ai_plan_returned_is_not_empty float binary64
                         sample_recommender draws 2 complete_user plan Hplan))).
Defined.

(** X18.  With at least one food log, the insights for a user row in
    which weight, height, age, gender or goals is not set raise an
    exception, which the route does not catch; with no log they are the
    message that there is not enough data, for every user row. *)
Theorem enhanced_insights_fail_for_incomplete_user :
  forall (F : Type) (H : PyFloat F) (food_logs : list (food_log F))
         (current_user : Main.User F),
    (Main.weight current_user = None \/ Main.height current_user = None \/
     Main.age current_user = None \/ Main.gender current_user = None \/
     Main.goals current_user = None) ->
    (food_logs <> [] ->
     exists e, Routes.get_enhanced_nutrition_insights food_logs current_user
               = Raise e) /\
    (food_logs = [] ->
     exists msg, Routes.get_enhanced_nutrition_insights food_logs current_user
                 = Ok (NotEnoughData msg [])).
Proof.
  intros F H logs u Hnone.
  unfold Routes.get_enhanced_nutrition_insights, get_nutrition_insights.
  split.
  - intros Hlogs. destruct logs as [|l logs]; [congruence|].
    destruct (calorie_distribution _ _ _) as [[pp cp] fp].
    destruct (daily_calories_of_incomplete_user u Hnone) as [e He].
    unfold calorie_insights.
    destruct (user_dict_has_keys u) as (-> & -> & -> & -> & _ & _).
    cbn [andb]. rewrite He. exists e. reflexivity.
  - intros ->. eexists. reflexivity.
Qed.

Lemma enhanced_insights_fail_for_incomplete_user_witness :
  exists e, Routes.get_enhanced_nutrition_insights high_carb_logs new_user
            = Raise e.
Proof.
  apply (enhanced_insights_fail_for_incomplete_user float binary64 high_carb_logs
           new_user).
  - left. reflexivity.
  - discriminate.
Defined.

(** ** The plan route [/meal-plan/generate] *)

Section RoutePlan.

Context {F : Type} `{PyFloat F}.

(** One pass of the loop over the meal types draws once from the filtered
    frame and appends one meal. *)
Lemma route_add_meal_inversion rng daily_calories
    (filtered_foods : list (Routes.food_row F)) acc meal_type n acc' n' :
  Routes.add_meal rng daily_calories filtered_foods acc meal_type n = Ok (acc', n') ->
  n' = Datatypes.S n /\
  exists m f,
    In f filtered_foods /\
    Routes.meals acc' = (Routes.meals acc ++ [m])%list /\
    Routes.m_type m = meal_type /\
    Routes.m_name m = Routes.name f /\
    Routes.totalCalories acc' = Routes.totalCalories acc + Routes.m_calories m.
Proof.
  unfold Routes.add_meal. unfold rbind at 1, lift.
  destruct (Main.meal_calories daily_calories meal_type) as [target|];
    [|discriminate].
  unfold rbind at 1.
  destruct (sample rng filtered_foods n) as [[f k]|] eqn:Hsample; [|discriminate].
  unfold rbind at 1.
  destruct (py_int _) as [cal|]; [|discriminate].
  unfold ret. intros Heq. injection Heq as <- <-.
  assert (Hk : k = Datatypes.S n).
  { unfold sample in Hsample.
    destruct (nth_error _ _); [|discriminate Hsample].
    now injection Hsample as _ <-. }
  split; [exact Hk|].
  apply sample_In in Hsample.
  eexists. exists f. cbn [Routes.meals Routes.totalCalories Routes.m_type
                            Routes.m_name Routes.m_calories].
  split; [exact Hsample|]. split; [reflexivity|]. repeat split.
Qed.

(** The day plan of the route: one meal for each meal type, in order, each
    of a row of the filtered frame, and their calories in total. *)
Lemma route_plan_day_inversion rng daily_calories
    (filtered_foods : list (Routes.food_row F)) n dp n' :
  Routes.plan_day rng daily_calories filtered_foods n = Ok (dp, n') ->
  n' = (n + 4)%nat /\
  map Routes.m_type (Routes.meals dp) = Main.meal_types /\
  Routes.totalCalories dp = sum_Z (map Routes.m_calories (Routes.meals dp)) /\
  forall m, In m (Routes.meals dp) ->
    exists f, In f filtered_foods /\ Routes.m_name m = Routes.name f.
Proof.
  unfold Routes.plan_day. unfold rbind at 1.
  destruct (for_each _ _ _ n) as [[acc k]|] eqn:Hloop; [|discriminate].
  unfold ret. intros Heq. injection Heq as <- <-.
  cbn [Routes.meals Routes.totalCalories].
  split.
  { apply for_each_draws in Hloop; [exact Hloop|].
    intros a x k1 a' k2 Hstep. now apply route_add_meal_inversion in Hstep. }
  apply (@for_each_fold _ _
           (fun items (a a' : Routes.daily_plan F) =>
              exists ms,
                Routes.meals a' = (Routes.meals a ++ ms)%list /\
                map Routes.m_type ms = items /\
                Routes.totalCalories a'
                = fold_left Z.add (map Routes.m_calories ms) (Routes.totalCalories a) /\
                forall m, In m ms ->
                  exists f, In f filtered_foods /\ Routes.m_name m = Routes.name f))
    in Hloop.
  - destruct Hloop as (ms & Hms & Htypes & Hc & Hfrom).
    cbn in Hms, Hc. subst ms. unfold sum_Z. auto.
  - intros a. exists []. cbn. rewrite app_nil_r. repeat split. intros m [].
  - intros x ys a a1 a2 k1 k2 Hstep (ms & Hms & Htypes & Hc & Hfrom).
    apply route_add_meal_inversion in Hstep.
    destruct Hstep as (_ & m & f & Hf & Hmeals & Hty & Hname & Hcal).
    exists (m :: ms). cbn [map fold_left].
    rewrite Hms, Hmeals, <- app_assoc, Hc, Hcal, Hty, Htypes. cbn [app].
    repeat split. intros m' [<-|Hin]; [eauto|auto].
Qed.

(** The plan of the route: the seven day names, and day plans made by
    [plan_day] from the calorie target and the filtered frame. *)
Lemma route_plan_inversion (food_nutrition_data : list (Routes.food_row F)) rng
    (current_user : Main.User F) n plan n' :
  Routes.generate_meal_plan food_nutrition_data rng current_user n = Ok (plan, n') ->
  map fst plan = Routes.days /\
  exists c,
    Main.daily_calories current_user = Ok c /\
    forall d dp, In (d, dp) plan ->
      exists n1 n2,
        Routes.plan_day rng c (Routes.filter_foods food_nutrition_data current_user) n1
        = Ok (dp, n2).
Proof.
  unfold Routes.generate_meal_plan. unfold rbind at 1, lift.
  destruct (Main.daily_calories current_user) as [c|]; [|discriminate].
  intros Hrun. split.
  - apply (set_loop_keys (fun day : string => day)) in Hrun.
    rewrite Hrun. reflexivity.
  - exists c. split; [reflexivity|].
    refine (@for_each_invariant _ _
              (fun plan : list (string * Routes.daily_plan F) =>
                 forall d dp, In (d, dp) plan ->
                   exists n1 n2,
                     Routes.plan_day rng c
                       (Routes.filter_foods food_nutrition_data current_user) n1
                     = Ok (dp, n2))
              _ _ _ _ _ _ _ _ Hrun); [|intros d dp []].
    intros acc i k acc' k' _ Hacc Hstep d dp Hin.
    unfold rbind, ret in Hstep.
    destruct (Routes.plan_day rng c _ k) as [[v k2]|] eqn:Hday; [|discriminate].
    injection Hstep as <- _.
    apply dict_set_In in Hin. destruct Hin as [Hin|Hv]; [eauto|].
    cbn in Hv. subst v. eauto.
Qed.

End RoutePlan.

(** X19.  A plan that the route returns holds the seven days from monday
    to sunday, in this order; each day has four meals, of the types
    breakfast, lunch, dinner and snack in this order, and its calories are
    the sum of the calories of its meals. *)
Theorem route_plan_is_a_week_of_four_meals :
  forall (F : Type) (H : PyFloat F) (food_nutrition_data : list (Routes.food_row F))
         (rng : nat -> nat) (current_user : Main.User F) (n n' : nat)
         (plan : list (string * Routes.daily_plan F)),
    Routes.generate_meal_plan food_nutrition_data rng current_user n = Ok (plan, n') ->
    map fst plan = ["monday"; "tuesday"; "wednesday"; "thursday"; "friday";
                    "saturday"; "sunday"] /\
    forall d dp, In (d, dp) plan ->
      map Routes.m_type (Routes.meals dp) = ["breakfast"; "lunch"; "dinner"; "snack"] /\
      Routes.totalCalories dp = sum_Z (map Routes.m_calories (Routes.meals dp)).
Proof.
  intros F H data rng u n n' plan Hplan.
  apply route_plan_inversion in Hplan.
  destruct Hplan as (Hkeys & c & _ & Hdays).
  split; [exact Hkeys|].
  intros d dp Hin. destruct (Hdays d dp Hin) as (n1 & n2 & Hday).
  apply route_plan_day_inversion in Hday.
  destruct Hday as (_ & Htypes & Hsum & _). auto.
Qed.

Lemma route_plan_is_a_week_of_four_meals_witness :
  exists plan n',
    Routes.generate_meal_plan sample_rows draws complete_user 0%nat = Ok (plan, n') /\
    map fst plan = ["monday"; "tuesday"; "wednesday"; "thursday"; "friday";
                    "saturday"; "sunday"].
Proof.
  assert (Hplan : exists plan n',
             Routes.generate_meal_plan sample_rows draws complete_user 0%nat
             = Ok (plan, n')).
  { vm_compute. do 2 eexists. reflexivity. }
  destruct Hplan as (plan & n' & Hplan). exists plan, n'.
  split; [exact Hplan|].
  exact (proj1 (route_plan_is_a_week_of_four_meals float binary64 sample_rows draws
                  complete_user 0%nat n' plan Hplan)).
Defined.

(** X20.  For a user whose dietary preferences contain vegetarian, in any
    letter case, no meal of a plan that the route returns has one of the
    words chicken, beef, pork, turkey, fish or salmon in its lowered
    name. *)
Theorem route_vegetarian_plan_has_no_meat :
  forall (F : Type) (H : PyFloat F) (food_nutrition_data : list (Routes.food_row F))
         (rng : nat -> nat) (current_user : Main.User F) (prefs : string)
         (n n' : nat) (plan : list (string * Routes.daily_plan F))
         (d : string) (dp : Routes.daily_plan F) (m : Routes.meal F),
    Main.dietary_preferences current_user = Some prefs ->
    str_in "vegetarian" (lower prefs) = true ->
    Routes.generate_meal_plan food_nutrition_data rng current_user n = Ok (plan, n') ->
    In (d, dp) plan ->
    In m (Routes.meals dp) ->
    contains_any Routes.meat_keywords (lower (Routes.m_name m)) = false.
Proof.
  intros F H data rng u prefs n n' plan d dp m Hprefs Hveg Hplan Hin Hm.
  apply route_plan_inversion in Hplan.
  destruct Hplan as (_ & c & _ & Hdays).
  destruct (Hdays d dp Hin) as (n1 & n2 & Hday).
  apply route_plan_day_inversion in Hday.
  destruct Hday as (_ & _ & _ & Hfrom).
  destruct (Hfrom m Hm) as (f & Hf & ->).
  unfold Routes.filter_foods in Hf. rewrite Hprefs in Hf.
  cbn [Routes.or_empty] in Hf. rewrite Hveg in Hf.
  apply filter_In in Hf. destruct Hf as [_ Hf].
  now apply negb_true_iff in Hf.
Qed.

Lemma route_vegetarian_plan_has_no_meat_witness :
  exists plan n' d dp m,
    Routes.generate_meal_plan sample_rows draws complete_user 0%nat = Ok (plan, n') /\
    In (d, dp) plan /\ In m (Routes.meals dp) /\
    contains_any Routes.meat_keywords (lower (Routes.m_name m)) = false.
Proof.
  assert (Hplan : exists d m ms c pr cb ft rest n',
             Routes.generate_meal_plan sample_rows draws complete_user 0%nat
             = Ok ((d, (@Routes.Build_daily_plan float (m :: ms) c pr cb ft)) :: rest,
                   n')).
  { vm_compute. do 9 eexists. reflexivity. }
  destruct Hplan as (d & m & ms & c & pr & cb & ft & rest & n' & Hplan).
  exists ((d, (@Routes.Build_daily_plan float (m :: ms) c pr cb ft)) :: rest), n',
    d, (@Routes.Build_daily_plan float (m :: ms) c pr cb ft), m.
  assert (Hin : In (d, (@Routes.Build_daily_plan float (m :: ms) c pr cb ft))
                   ((d, (@Routes.Build_daily_plan float (m :: ms) c pr cb ft)) :: rest))
    by (left; reflexivity).
  assert (Hm : In m (Routes.meals (@Routes.Build_daily_plan float (m :: ms) c pr cb ft)))
    by (left; reflexivity).
  split; [exact Hplan|]. split; [exact Hin|]. split; [exact Hm|].
  exact (route_vegetarian_plan_has_no_meat float binary64 sample_rows draws
           complete_user "Vegetarian" 0%nat n' _ d _ m eq_refl eq_refl Hplan Hin Hm).
Defined.

(** *** When the route returns *)







(** *** The two calorie targets *)

(** X22.  For a user row with gender, weight, height and age set and not
    empty or zero, and a goal text that contains neither weight_loss nor
    weight_gain, the plan route and the recommender compute the same
    calorie target, whatever the activity level holds. *)
Theorem route_and_recommender_agree_on_calories :
  forall (F : Type) (H : PyFloat F) (current_user : Main.User F) (goal : string),
    Main.truthy_str (Main.gender current_user) = true ->
    Main.truthy_float (Main.weight current_user) = true ->
    Main.truthy_float (Main.height current_user) = true ->
    Main.truthy_int (Main.age current_user) = true ->
    Main.goals current_user = Some goal ->
    str_in "weight_loss" (lower goal) = false ->
    str_in "weight_gain" (lower goal) = false ->
    Main.daily_calories current_user
    = _calculate_daily_calories (Routes.user_dict current_user).
Proof.
  intros F H u goal Hg Hw Hh Ha Hgoal Hloss Hgain.
  unfold Main.daily_calories, _calculate_daily_calories, Routes.user_dict.
  cbn [weight height age gender activity_level goals].
  rewrite Hg, Hw, Hh, Ha, Hgoal. cbn [andb].
  destruct (Main.gender u) as [g|]; [|discriminate Hg].
  destruct (Main.weight u) as [w|]; [|discriminate Hw].
  destruct (Main.height u) as [h|]; [|discriminate Hh].
  destruct (Main.age u) as [a|]; [|discriminate Ha].
  destruct (Main.activity_level u) as [[|c s]|];
    cbn [Routes.optional_entry has_key andb entry_float entry_int entry_lower
         bind Main.truthy_str];
    rewrite Hloss, Hgain; cbn [bind];
    change (activity_multipliers_get (Val "moderately_active") (dec 155 2))
      with (dec 155 2 : F);
    change (activity_multipliers_get (Val "") (dec 155 2)) with (dec 155 2 : F);
    change (activity_multipliers_get PyNone (dec 155 2)) with (dec 155 2 : F);
    destruct (py_int _) as [k|e]; cbn [bind]; try reflexivity;
    destruct goal; reflexivity.
Qed.

Lemma route_and_recommender_agree_on_calories_witness :
  Main.daily_calories complete_user
  = _calculate_daily_calories (Routes.user_dict complete_user).
Proof.
  apply (route_and_recommender_agree_on_calories float binary64 complete_user
           "muscle_gain"); reflexivity.
Defined.

(** ** The insight route [/analytics/nutrition-insights] *)

(** X23.  With fewer than ten food logs, the insights of the route are the
    two general ones, on logging and on hydration, whatever the logs
    hold. *)
Theorem route_insights_with_few_logs :
  forall (F : Type) (H : PyFloat F) (food_logs : list (Main.FoodLog F)),
    (List.length food_logs < 10)%nat ->
    map Main.category (Main.insights (Main.get_nutrition_insights food_logs))
    = ["general"; "hydration"] /\
    map Main.priority (Main.insights (Main.get_nutrition_insights food_logs))
    = ["medium"; "medium"].
Proof.
  intros F H logs Hfew. apply Nat.ltb_lt in Hfew.
  unfold Main.get_nutrition_insights. rewrite Hfew.
  destruct (fltb _ _); cbn [Main.insights]; split; reflexivity.
Qed.

Lemma route_insights_with_few_logs_witness :
  map Main.category (Main.insights (Main.get_nutrition_insights route_logs))
  = ["general"; "hydration"].
Proof.
  apply (route_insights_with_few_logs float binary64 route_logs). cbn. lia.
Defined.

(** X24.  The food recommendations of the route are never empty: they
    hold at least 2 and at most 8 entries. *)
Theorem route_recommendations_between_2_and_8 :
  forall (F : Type) (H : PyFloat F) (food_logs : list (Main.FoodLog F)),
    (2 <= List.length (Main.food_recommendations
                         (Main.get_nutrition_insights food_logs)) <= 8)%nat.
Proof.
  intros F H logs. unfold Main.get_nutrition_insights.
  destruct (fltb (of_int 0) _); cbn [Main.food_recommendations];
    repeat match goal with
           | |- context [if fltb ?a ?b then _ else _] => destruct (fltb a b)
           end; cbn; lia.
Qed.

(** ** The barcode lookup *)

(** X25.  For barcodes of ASCII characters, the food that the lookup
    returns depends on the barcode only through its first six digits: two
    barcodes with the same first six digits, whatever else they hold, give
    the same food and the same nutrition data, or both give nothing. *)
Theorem barcode_lookup_reads_six_digits :
  forall (nutrition : Type) (self : MlModels.data_loader nutrition)
         (barcode1 barcode2 : string),
    is_ascii barcode1 = true -> is_ascii barcode2 = true ->
    substring 0 6 (MlModels.digits barcode1)
    = substring 0 6 (MlModels.digits barcode2) ->
    option_map (@MlModels.food_name nutrition) (MlModels.lookup_barcode self barcode1)
    = option_map (@MlModels.food_name nutrition) (MlModels.lookup_barcode self barcode2) /\
    option_map (@MlModels.nutrition_of nutrition) (MlModels.lookup_barcode self barcode1)
    = option_map (@MlModels.nutrition_of nutrition) (MlModels.lookup_barcode self barcode2).
Proof.
  intros nutrition self b1 b2 _ _ Hsame. unfold MlModels.lookup_barcode.
  rewrite Hsame.
  destruct (MlModels.int_of_digits _) as [k|]; [|split; reflexivity].
  destruct (MlModels.get_food_items self) as [|c cs]; [split; reflexivity|].
  destruct (nth_error _ _) as [food|]; [|split; reflexivity].
  destruct (MlModels.get_food_nutrition self food); split; reflexivity.
Qed.

Lemma barcode_lookup_reads_six_digits_witness :
  option_map (@MlModels.food_name Z)
    (MlModels.lookup_barcode sample_loader "012345678905")
  = option_map (@MlModels.food_name Z)
      (MlModels.lookup_barcode sample_loader "01-23-45 999").
Proof.
  apply (barcode_lookup_reads_six_digits Z sample_loader
           "012345678905" "01-23-45 999"); reflexivity.
Defined.

(** X26.  A food that the lookup returns is one of the foods of the data
    loader, with the nutrition data that the loader has for it; the
    barcode is returned as it was given and holds a digit, and the source
    is barcode_database.  The barcode is a text of ASCII characters. *)
Theorem barcode_lookup_result :
  forall (nutrition : Type) (self : MlModels.data_loader nutrition)
         (barcode : string) (r : MlModels.barcode_food nutrition),
    is_ascii barcode = true ->
    MlModels.lookup_barcode self barcode = Some r ->
    In (MlModels.food_name r) (MlModels.get_food_items self) /\
    MlModels.get_food_nutrition self (MlModels.food_name r)
    = Some (MlModels.nutrition_of r) /\
    MlModels.barcode_of r = barcode /\
    MlModels.source r = "barcode_database" /\
    MlModels.digits barcode <> "".
Proof.
  intros nutrition self barcode r _. unfold MlModels.lookup_barcode.
  destruct (MlModels.int_of_digits _) as [k|] eqn:Hint; [|discriminate].
  destruct (MlModels.get_food_items self) as [|c cs] eqn:Hitems; [discriminate|].
  destruct (nth_error _ _) as [food|] eqn:Hnth; [|discriminate].
  destruct (MlModels.get_food_nutrition self food) as [nu|] eqn:Hnu; [|discriminate].
  intros Heq. injection Heq as <-.
  cbn [MlModels.food_name MlModels.nutrition_of MlModels.barcode_of MlModels.source].
  apply nth_error_In in Hnth.
  repeat split; try assumption.
  intros Hnone. rewrite Hnone in Hint. discriminate Hint.
Qed.

Lemma barcode_lookup_result_witness :
  exists r,
    MlModels.lookup_barcode sample_loader "012346" = Some r /\
    MlModels.food_name r = "bibimbap" /\
    In (MlModels.food_name r) (MlModels.get_food_items sample_loader).
Proof.
  eexists. split; [reflexivity|]. split; [reflexivity|].
  exact (proj1 (barcode_lookup_result Z sample_loader "012346" _ eq_refl eq_refl)).
Defined.

(** ** The nutrition summary *)

Section SummaryDays.

Context {F : Type} `{PyFloat F}.

(** Setting a key that is not present appends the entry. *)
Lemma set_day_fresh (d : list (Z * Summary.daily F)) k v :
  ~ In k (map fst d) -> Summary.set_day d k v = (d ++ [(k, v)])%list.
Proof.
  induction d as [|[k' v'] d IH]; intros Hfresh; [reflexivity|].
  cbn [Summary.set_day app]. cbn [map fst In] in Hfresh.
  destruct (Z.eqb_spec k' k) as [->|_]; [tauto|].
  rewrite IH by tauto. reflexivity.
Qed.

(** A loop that sets distinct keys appends its entries in order. *)
Lemma set_days_fresh (key : Z -> Z) (value : Z -> Summary.daily F) (l : list Z) :
  forall acc,
    NoDup (map fst acc ++ map key l) ->
    fold_left (fun d i => Summary.set_day d (key i) (value i)) l acc
    = (acc ++ map (fun i => (key i, value i)) l)%list.
Proof.
  induction l as [|i l IH]; intros acc Hnodup.
  - cbn. now rewrite app_nil_r.
  - cbn [fold_left map]. cbn [map] in Hnodup.
    rewrite set_day_fresh.
    + rewrite IH.
      * now rewrite <- app_assoc.
      * rewrite map_app, <- app_assoc. exact Hnodup.
    + apply NoDup_remove_2 in Hnodup. intros Hin. apply Hnodup.
      apply in_or_app. now left.
Qed.

Lemma range_Z_shift_NoDup (a n : Z) :
  NoDup (map (fun i => a + i) (Summary.range_Z n)).
Proof.
  unfold Summary.range_Z. rewrite map_map.
  generalize 0%nat. induction (Z.to_nat n) as [|m IH]; intros s; cbn [seq map].
  - constructor.
  - constructor; [|apply IH].
    intros Hin. apply in_map_iff in Hin. destruct Hin as (k & Hk & Hin).
    apply in_seq in Hin. lia.
Qed.

(** The dictionary after the first loop: one entry of zeros for each day,
    from the date of [start_date] on. *)
Lemma initial_days_entries (start_date : Summary.timestamp) (n : Z) :
  map fst (Summary.initial_days start_date n)
  = map (fun i => Summary.ordinal start_date + i) (Summary.range_Z n) /\
  map (fun kv => Summary.day_date (snd kv)) (Summary.initial_days start_date n)
  = map (fun i => Summary.ordinal start_date + i) (Summary.range_Z n).
Proof.
  unfold Summary.initial_days. cbn [Summary.add_days Summary.ordinal].
  rewrite (set_days_fresh (fun i => Summary.ordinal start_date + i)
             (fun i => {| Summary.day_date := Summary.ordinal start_date + i;
                          Summary.day_calories := of_int 0;
                          Summary.day_protein := of_int 0;
                          Summary.day_carbs := of_int 0;
                          Summary.day_fat := of_int 0;
                          Summary.day_fiber := of_int 0;
                          Summary.day_sugar := of_int 0 |})).
  - cbn [app]. rewrite !map_map. cbn [fst snd Summary.day_date]. split; reflexivity.
  - cbn [map app]. apply range_Z_shift_NoDup.
Qed.

(** Adding a log changes neither the keys nor the dates of the entries. *)
Lemma add_log_keys (d : list (Z * Summary.daily F)) (log : Summary.FoodLog F) :
  map fst (Summary.add_log d log) = map fst d /\
  map (fun kv => Summary.day_date (snd kv)) (Summary.add_log d log)
  = map (fun kv => Summary.day_date (snd kv)) d.
Proof.
  induction d as [|[k v] d [IH1 IH2]]; [split; reflexivity|].
  cbn [Summary.add_log].
  destruct (Z.eqb k (Summary.ordinal (Summary.logged_at log)));
    cbn [map fst snd Summary.day_date]; [split; reflexivity|].
  rewrite IH1, IH2. split; reflexivity.
Qed.

Lemma add_logs_keys (logs : list (Summary.FoodLog F)) :
  forall d,
    map fst (fold_left Summary.add_log logs d) = map fst d /\
    map (fun kv => Summary.day_date (snd kv)) (fold_left Summary.add_log logs d)
    = map (fun kv => Summary.day_date (snd kv)) d.
Proof.
  induction logs as [|log logs IH]; intros d; [split; reflexivity|].
  cbn [fold_left]. destruct (IH (Summary.add_log d log)) as [IH1 IH2].
  destruct (add_log_keys d log) as [H1 H2].
  rewrite IH1, IH2, H1, H2. split; reflexivity.
Qed.



(** The dates of the daily entries of a summary. *)
Lemma summary_dates now start_date end_date (logs : list (Summary.FoodLog F)) r :
  Summary.get_nutrition_summary now (Some start_date) (Some end_date) logs
  = Summary.Done r ->
  map Summary.day_date (Summary.daily_data r)
  = map (fun i => Summary.ordinal start_date + i)
        (Summary.range_Z (Summary.days_between start_date end_date + 1)).
Proof.
  unfold Summary.get_nutrition_summary.
  destruct (Z.eqb _ 0); [discriminate|].
  intros Heq. injection Heq as <-. cbn [Summary.daily_data].
  rewrite map_map.
  rewrite (proj2 (add_logs_keys logs _)).
  apply initial_days_entries.
Qed.

End SummaryDays.




(** X28.  A summary holds one daily entry for each day of the range, in
    order from the date of the start date: as many as the whole days from
    the start date to the end date, plus one, and none when this number is
    negative. *)
Theorem summary_has_one_entry_per_day :
  forall (F : Type) (H : PyFloat F) (now start_date end_date : Summary.timestamp)
         (food_logs : list (Summary.FoodLog F)) (r : Summary.NutritionSummary F),
    Summary.get_nutrition_summary now (Some start_date) (Some end_date) food_logs
    = Summary.Done r ->
    map Summary.day_date (Summary.daily_data r)
    = map (fun i => Summary.ordinal start_date + i)
          (Summary.range_Z (Summary.days_between start_date end_date + 1)) /\
    Z.of_nat (List.length (Summary.daily_data r))
    = Z.max 0 (Summary.days_between start_date end_date + 1).
Proof.
  intros F H now s e logs r Hr.
  pose proof (summary_dates now s e logs r Hr) as Hdates.
  split; [exact Hdates|].
  rewrite <- (length_map Summary.day_date), Hdates, length_map.
  unfold Summary.range_Z. rewrite length_map, length_seq. lia.
Qed.

Lemma summary_has_one_entry_per_day_witness :
  exists r,
    Summary.get_nutrition_summary evening (Some evening) (Some next_morning)
      [morning_log] = Summary.Done r /\
    map Summary.day_date (Summary.daily_data r) = [739004].
Proof.
  assert (Hr : exists r,
             Summary.get_nutrition_summary evening (Some evening) (Some next_morning)
               [morning_log] = Summary.Done r).
  { vm_compute. eexists. reflexivity. }
  destruct Hr as (r & Hr). exists r. split; [exact Hr|].
  exact (proj1 (summary_has_one_entry_per_day float binary64 evening evening
                  next_morning [morning_log] r Hr)).
Defined.

(** X29.  Without the two dates, the summary runs from seven days before
    the end of the present day to the end of the present day, and holds
    eight daily entries: the averages are taken over eight days. *)
Theorem summary_default_has_eight_days :
  forall (F : Type) (H : PyFloat F) (now : Summary.timestamp)
         (food_logs : list (Summary.FoodLog F)),
    exists r,
      Summary.get_nutrition_summary now None None food_logs = Summary.Done r /\
      map Summary.day_date (Summary.daily_data r)
      = map (fun i => Summary.ordinal now - 7 + i) [0; 1; 2; 3; 4; 5; 6; 7].
Proof.
  intros F H now logs.
  assert (Hdays : Summary.days_between
                    (Summary.add_days (Summary.end_of_day now) (-7))
                    (Summary.end_of_day now) = 7).
  { unfold Summary.days_between, Summary.instant, Summary.add_days.
    cbn [Summary.ordinal Summary.microseconds].
    set (us := Summary.microseconds (Summary.end_of_day now)).
    replace (Summary.ordinal (Summary.end_of_day now) * Summary.day_us + us
             - ((Summary.ordinal (Summary.end_of_day now) + -7) * Summary.day_us + us))
      with (7 * Summary.day_us) by lia.
    apply Z.div_mul. discriminate. }
  destruct (Summary.get_nutrition_summary now None None logs) as [r|] eqn:Hr.
  - exists r. split; [reflexivity|].
    change (Summary.get_nutrition_summary now None None logs)
      with (Summary.get_nutrition_summary now
              (Some (Summary.add_days (Summary.end_of_day now) (-7)))
              (Some (Summary.end_of_day now)) logs) in Hr.
    apply summary_dates in Hr. rewrite Hr, Hdays. reflexivity.
  - exfalso. unfold Summary.get_nutrition_summary in Hr.
    rewrite Hdays in Hr. discriminate Hr.
Qed.


